(** * Split / upload / download / merge pipeline of [HW2-split_upload_4gb.go]

    A shallow embedding of the Go program: the process state (file system,
    standard output, temporary-name counter, transfer-client call log) is an
    explicit [World] threaded through every function; the functions of the
    program ([splitFile], [uploadSingleFragment], [downloadAndMerge],
    [fileMD5], [run], [main]) are Rocq functions over it. The Go standard
    library calls they make live in the modules [fmt], [filepath], [os], [io]
    and [hex]; the 0g-storage-client commands and [crypto/md5] are interfaces
    ([TransferClient], [Md5]). *)

From Stdlib Require Import ZArith Lia Strings.Byte Ascii String List.
From Stdlib Require Import DecimalString DecimalNat.
From stdpp Require Import gmap strings list fin_maps.

Open Scope Z_scope.
Open Scope nat_scope.

(* ===================================================================== *)
(** ** Errors and outcomes *)
(* ===================================================================== *)

(** A Go [error] is represented by its [Error()] text: the program only ever
    inspects errors through [err.Error()] and [%w] formatting. *)
Definition error : Type := string.

(** [io.EOF]. *)
Definition EOF : error := "EOF".

(** [*fs.PathError]: [op + " " + path + ": " + cause]. *)
Definition PathError (op path cause : string) : error :=
  op +:+ " " +:+ path +:+ ": " +:+ cause.

(** The way a Go function of type [(T, error)] ends: it returns a value, it
    returns a non-nil error, or it panics. [Stuck] is a computation that
    never ends: a send blocking for ever, or the loop bound of [splitLoop]
    running out, which [splitLoop_not_stuck] shows never happens. *)
Inductive outcome (A : Type) : Type :=
| Ok (a : A)
| Err (e : error)
| Panic (msg : string)
| Stuck.
Arguments Ok {A} a.
Arguments Err {A} e.
Arguments Panic {A} msg.
Arguments Stuck {A}.

Definition is_Ok {A} (o : outcome A) : bool :=
  match o with Ok _ => true | _ => false end.

(* ===================================================================== *)
(** ** The process state *)
(* ===================================================================== *)

(** The package-level variables set from the command line. *)
Record Flags : Type := mkFlags {
  rpcURL : string;
  privateKey : string;
  filePath : string;
  indexerURL : string;
}.

(** One invocation of a 0g-storage-client command, with its argument list. *)
Inductive call : Type :=
| CallUpload (args : list string)
| CallDownload (args : list string).

Record World : Type := mkWorld {
  flags : Flags;
  (** regular files, by path *)
  fs : gmap string (list byte);
  (** what [fmt.Printf] / [fmt.Println] wrote, one entry per call *)
  stdout : list string;
  (** number of system calls made so far *)
  clock : nat;
  (** fault plan: the system call with this number fails with this cause *)
  faults : gmap nat string;
  (** for a write that fails: how many bytes it has written when it fails
      (none when the plan has no entry for that system call) *)
  shorts : gmap nat nat;
  (** source of the "random" part of temporary names *)
  tmpseq : nat;
  (** transfer-client commands executed so far, oldest first *)
  calls : list call;
}.

Definition set_fs (m : gmap string (list byte)) (w : World) : World :=
  mkWorld (flags w) m (stdout w) (clock w) (faults w) (shorts w) (tmpseq w) (calls w).
Definition put_line (s : string) (w : World) : World :=
  mkWorld (flags w) (fs w) (stdout w ++ [s]) (clock w) (faults w) (shorts w) (tmpseq w)
    (calls w).
Definition tick (w : World) : World :=
  mkWorld (flags w) (fs w) (stdout w) (S (clock w)) (faults w) (shorts w) (tmpseq w)
    (calls w).
Definition next_tmp (w : World) : World :=
  mkWorld (flags w) (fs w) (stdout w) (clock w) (faults w) (shorts w) (S (tmpseq w))
    (calls w).
Definition log_call (c : call) (w : World) : World :=
  mkWorld (flags w) (fs w) (stdout w) (clock w) (faults w) (shorts w) (tmpseq w)
    (calls w ++ [c]).

(** A stateful computation of the program. *)
Definition M (A : Type) : Type := World -> outcome A * World.

Definition ret {A} (a : A) : M A := fun w => (Ok a, w).

Definition bind {A B} (m : M A) (k : A -> M B) : M B := fun w =>
  match m w with
  | (Ok a, w') => k a w'
  | (Err e, w') => (Err e, w')
  | (Panic msg, w') => (Panic msg, w')
  | (Stuck, w') => (Stuck, w')
  end.

Notation "x <- m ;; k" := (bind m (fun x => k))
  (at level 100, m at next level, right associativity).
Notation "m ;;; k" := (bind m (fun _ => k))
  (at level 100, right associativity).

(** [defer cleanup] around [body]: [cleanup] runs when [body] returns or
    panics; it does not run when [body] never ends. *)
Definition defer {A} (cleanup : World -> World) (body : M A) : M A := fun w =>
  match body w with
  | (Stuck, w') => (Stuck, w')
  | (r, w') => (r, cleanup w')
  end.

(* ===================================================================== *)
(** ** Package [fmt] *)
(* ===================================================================== *)

Module fmt.

Definition nl : string := String (ascii_of_nat 10) "".

(** The verb [%d] on a non-negative integer. *)
Definition d (n : nat) : string := NilEmpty.string_of_uint (Nat.to_uint n).

(** The verb [%d] on an integer constant. *)
Definition dz (z : Z) : string := NilZero.string_of_int (Z.to_int z).

Fixpoint zeros (k : nat) (u : Decimal.uint) : Decimal.uint :=
  match k with
  | O => u
  | S k' => Decimal.D0 (zeros k' u)
  end.

(** The verb [%0<width>d] on a non-negative integer: zero padding on the
    left up to [width] digits, never truncating. *)
Definition d0 (width n : nat) : string :=
  let u := Nat.to_uint n in
  NilEmpty.string_of_uint (zeros (width - Decimal.nb_digits u) u).

Definition Printf (s : string) : M unit := fun w => (Ok tt, put_line s w).

Definition Println (s : string) : M unit := Printf (s +:+ nl).

End fmt.

(* ===================================================================== *)
(** ** Package [path/filepath] (Unix) *)
(* ===================================================================== *)

Module filepath.

Definition slash : ascii := "/"%char.

(** [filepath.Join(dir, name)] for a clean, non-empty [dir] and a plain
    file name, which is how the program calls it ([dir] comes from
    [os.MkdirTemp]); [clean_dir] below says which [dir] these are. *)
Definition Join (dir name : string) : string := dir +:+ "/" +:+ name.

Fixpoint strip_slashes (s : string) : string :=
  match s with
  | String c s' => if Ascii.eqb c slash then strip_slashes s' else s
  | EmptyString => EmptyString
  end.

Fixpoint upto_slash (s : string) : string :=
  match s with
  | String c s' => if Ascii.eqb c slash then EmptyString else String c (upto_slash s')
  | EmptyString => EmptyString
  end.

(** [filepath.Base]: the last element of the path. *)
Definition Base (path : string) : string :=
  match path with
  | EmptyString => "."
  | _ =>
      match String.rev (upto_slash (strip_slashes (String.rev path))) with
      | EmptyString => "/"
      | b => b
      end
  end.

Fixpoint split_on (sep : ascii) (cur : string) (s : string) : list string :=
  match s with
  | EmptyString => [String.rev cur]
  | String c s' =>
      if Ascii.eqb c sep then String.rev cur :: split_on sep EmptyString s'
      else split_on sep (String c cur) s'
  end.



(** [filepath.SplitList]: split on the list separator [':']; the empty
    string gives the empty list. *)
Definition SplitList (path : string) : list string :=
  match path with
  | EmptyString => []
  | _ => split_on ":"%char EmptyString path
  end.

End filepath.

(* ===================================================================== *)
(** ** Package [os] *)
(* ===================================================================== *)

Module os.

(** An open [*os.File]: the file it names and the current offset. Reads and
    writes go to the live file system at that offset. *)
Record File : Type := mkFile { name : string; offset : nat }.

Definition advance (n : nat) (f : File) : File :=
  mkFile (name f) (offset f + n).

(** Every system call consumes one tick and consults the fault plan. *)
Definition syscall (w : World) : option string * World :=
  (faults w !! clock w, tick w).

Definition TempDir : string := "/tmp".

Definition content (w : World) (path : string) : list byte :=
  default [] (fs w !! path).

(** The file after writing [data] at offset [off] (holes read as zero). *)
Definition write_at (off : nat) (data old : list byte) : list byte :=
  take off (old ++ replicate (off - length old) x00) ++ data
    ++ drop (off + length data) old.

Definition Open (path : string) : M File := fun w =>
  let (flt, w1) := syscall w in
  match flt with
  | Some cause => (Err (PathError "open" path cause), w1)
  | None =>
      match fs w1 !! path with
      | Some _ => (Ok (mkFile path 0), w1)
      | None => (Err (PathError "open" path "no such file or directory"), w1)
      end
  end.

(** [f.Stat()]: the size of the file, or nothing on failure. *)
Definition Stat (f : File) (w : World) : option nat * World :=
  let (flt, w1) := syscall w in
  match flt with
  | Some _ => (None, w1)
  | None => (Some (length (content w1 (name f))), w1)
  end.

(** [maxRW = 1 << 30] of [internal/poll]: one [Read] of a file asks the
    system for at most 1 GiB, whatever the length of the buffer. *)
Definition maxRW : Z := 1073741824%Z.

(** [f.Read(buf)] with [len(buf) = len]: the bytes read into [buf[:n]], the
    error, and the file with its offset advanced. As for [*os.File] on a
    regular file: a zero-length buffer gives [(0, nil)]; a failed read gives
    [(0, err)]; at the end of the file [(0, io.EOF)]; otherwise a nil error
    and as many bytes as fit in the buffer cut to [maxRW] and are left in
    the file (the system call itself is not short on a regular file). *)
Definition Read (f : File) (len : Z) (w : World)
  : list byte * option error * File * World :=
  if (len =? 0)%Z then ([], None, f, w)
  else
    let (flt, w1) := syscall w in
    match flt with
    | Some cause => ([], Some (PathError "read" (name f) cause), f, w1)
    | None =>
        let rest := drop (offset f) (content w1 (name f)) in
        match rest with
        | [] => ([], Some EOF, f, w1)
        | _ =>
            let chunk :=
              take (Z.to_nat (Z.min (Z.min len maxRW) (Z.of_nat (length rest)))) rest in
            (chunk, None, advance (length chunk) f, w1)
        end
    end.

(** [os.Create]: create or truncate. *)
Definition Create (path : string) : M File := fun w =>
  let (flt, w1) := syscall w in
  match flt with
  | Some cause => (Err (PathError "open" path cause), w1)
  | None => (Ok (mkFile path 0), set_fs (<[path := []]> (fs w1)) w1)
  end.

(** [f.Write(data)]: all of [data] is written at the offset; a write that
    fails has written the first bytes of [data], as many as [shorts] says
    for this system call (none without an entry). *)
Definition Write (f : File) (data : list byte) (w : World)
  : option error * File * World :=
  let (flt, w1) := syscall w in
  match flt with
  | Some cause =>
      let part := take (default 0 (shorts w !! clock w)) data in
      (Some (PathError "write" (name f) cause), advance (length part) f,
       match part with
       | [] => w1
       | _ => set_fs (<[name f := write_at (offset f) part (content w1 (name f))]> (fs w1)) w1
       end)
  | None =>
      (None, advance (length data) f,
       set_fs (<[name f := write_at (offset f) data (content w1 (name f))]> (fs w1)) w1)
  end.

(** [os.ReadFile]: the whole file, or [(nil, err)]. *)
Definition ReadFile (path : string) (w : World) : list byte * option error * World :=
  let (flt, w1) := syscall w in
  match flt with
  | Some cause => ([], Some (PathError "open" path cause), w1)
  | None =>
      match fs w1 !! path with
      | Some data => (data, None, w1)
      | None => ([], Some (PathError "open" path "no such file or directory"), w1)
      end
  end.

(** The name [os.MkdirTemp] / [os.CreateTemp] give for the pattern
    [before*after] in the default directory. *)
Definition temp_name (before after : string) (n : nat) : string :=
  TempDir +:+ "/" +:+ before +:+ fmt.d n +:+ after.

(** [os.MkdirTemp("", before + "*")]. Directories hold no state of their
    own: a directory is the set of files below it. *)
Definition MkdirTemp (before : string) : M string := fun w =>
  let (flt, w1) := syscall w in
  match flt with
  | Some cause => (Err (PathError "mkdir" (temp_name before "" (tmpseq w1)) cause), w1)
  | None => (Ok (temp_name before "" (tmpseq w1)), next_tmp w1)
  end.

(** [os.CreateTemp("", before + "*" + after)]: a nil file on failure. *)
Definition CreateTemp (before after : string) (w : World)
  : option File * option error * World :=
  let (flt, w1) := syscall w in
  match flt with
  | Some cause => (None, Some (PathError "open" (temp_name before after (tmpseq w1)) cause), w1)
  | None =>
      let path := temp_name before after (tmpseq w1) in
      (Some (mkFile path 0), None, set_fs (<[path := []]> (fs w1)) (next_tmp w1))
  end.

(** [os.Remove]; the program ignores its error. *)
Definition Remove (path : string) (w : World) : World :=
  let (flt, w1) := syscall w in
  match flt with
  | Some _ => w1
  | None => set_fs (delete path (fs w1)) w1
  end.

Definition below (dir path : string) : bool :=
  String.eqb dir path || String.prefix (dir +:+ "/") path.

(** [os.RemoveAll]; the program ignores its error. *)
Definition RemoveAll (dir : string) (w : World) : World :=
  let (flt, w1) := syscall w in
  match flt with
  | Some _ => w1
  | None => set_fs (filter (fun kv => below dir (fst kv) = false) (fs w1)) w1
  end.

End os.

(* ===================================================================== *)
(** ** Packages [io], [encoding/hex], [crypto/md5] *)
(* ===================================================================== *)

Module io.

(** [io.Copy(h, f)] into a hash: everything from the offset of [f] to the
    end of the file is fed to the hash, or the copy fails. *)
Definition Copy (f : os.File) : M (list byte) := fun w =>
  let (flt, w1) := os.syscall w in
  match flt with
  | Some cause => (Err (PathError "read" (os.name f) cause), w1)
  | None => (Ok (drop (os.offset f) (os.content w1 (os.name f))), w1)
  end.

End io.

Module hex.

Definition digit (n : N) : ascii :=
  if (n <? 10)%N then ascii_of_N (48 + n) else ascii_of_N (87 + n).

Definition encode_byte (b : byte) : string :=
  let n := Byte.to_N b in
  String (digit (n / 16)%N) (String (digit (n mod 16)%N) EmptyString).

(** [hex.EncodeToString]. *)
Fixpoint EncodeToString (bs : list byte) : string :=
  match bs with
  | [] => EmptyString
  | b :: bs' => encode_byte b +:+ EncodeToString bs'
  end.

End hex.

(** [crypto/md5]: the digest function, kept abstract. *)
Class Md5 : Type := md5_Sum : list byte -> list byte.

(* ===================================================================== *)
(** ** The 0g-storage-client commands *)
(* ===================================================================== *)

(** The upload and download commands of [github.com/0gfoundation/
    0g-storage-client/cmd] are an external collaborator. A command is a
    deterministic function of the commands run before it, of its arguments
    and, for upload, of the bytes of the file named by [--file].
    - upload yields the messages it passes to [logrus.Infof], in order, and
      the error of its execution;
    - download yields the bytes it leaves in the file named by [--output]
      (nothing when it does not write it) and the error of its execution. *)
Class TransferClient : Type := {
  execUpload : list call -> list string -> option (list byte)
               -> list string * option error;
  execDownload : list call -> list string -> option (list byte) * option error;
}.

(* ===================================================================== *)
(** ** The program *)
(* ===================================================================== *)

(** [FragmentSize = 400 * 1024 * 1024]. *)
Definition FragmentSize : Z := (400 * 1024 * 1024)%Z.

(** [FragmentNum = 10]; declared and never used. *)
Definition FragmentNum : Z := 10%Z.

(** [runtime.maxAlloc] on 64-bit Linux, [1 << 48]: [make([]byte, n)] panics
    for [n < 0] and for [n] above it. [splitFile] below has the first of the
    two, and takes the allocation to succeed; what is said of its panics is
    said for chunk sizes up to [maxAlloc]. *)
Definition maxAlloc : Z := 281474976710656%Z.

Definition get_flags : M Flags := fun w => (Ok (flags w), w).

(** [x, err := f(); if err != nil { return wrap(err) }]. *)
Definition map_err {A} (wrap : error -> error) (m : M A) : M A := fun w =>
  match m w with
  | (Err e, w') => (Err (wrap e), w')
  | r => r
  end.

(** [x, _ := f()]: on an error the zero value is used. *)
Definition or_zero {A} (zero : A) (m : M A) : M A := fun w =>
  match m w with
  | (Err _, w') => (Ok zero, w')
  | r => r
  end.

(** [fmt.Sprintf("fragment_%03d.dat", i)]. *)
Definition fragName (i : nat) : string := "fragment_" +:+ fmt.d0 3 i +:+ ".dat".

Definition fragPath (dstDir : string) (i : nat) : string :=
  filepath.Join dstDir (fragName i).

(** The [for i := 0; ; i++] loop of [splitFile]. [f] is the open source,
    [files] the paths appended so far. *)
Fixpoint splitLoop (fuel : nat) (f : os.File) (dstDir : string) (chunkSize : Z)
    (i : nat) (files : list string) : M (list string) := fun w =>
  match fuel with
  | O => (Stuck, w)
  | S fuel' =>
      (* n, err := f.Read(buf) *)
      let '(chunk, err, f1, w1) := os.Read f chunkSize w in
      if length chunk =? 0 then
        match err with
        | Some e => if negb (String.eqb e "EOF") then (Err e, w1) else (Ok files, w1)
        | None => (Ok files, w1)
        end
      else
        (* out, err := os.Create(fragPath): [err] is the variable of the
           read above, assigned again here *)
        match os.Create (fragPath dstDir i) w1 with
        | (Ok out, w2) =>
            let err : option error := None in
            match os.Write out chunk w2 with
            | (Some e, _, w3) => (Err e, w3)
            | (None, _, w3) =>
                let files1 := files ++ [fragPath dstDir i] in
                match err with
                | Some e =>
                    if String.eqb e "EOF" then (Ok files1, w3)
                    else splitLoop fuel' f1 dstDir chunkSize (S i) files1 w3
                | None => splitLoop fuel' f1 dstDir chunkSize (S i) files1 w3
                end
            end
        | (Err e, w2) => (Err e, w2)
        | (Panic msg, w2) => (Panic msg, w2)
        | (Stuck, w2) => (Stuck, w2)
        end
  end.

(** Number of iterations [splitLoop] is given: one more than the bytes the
    source still holds. *)
Definition split_bound (f : os.File) (w : World) : nat :=
  S (S (length (os.content w (os.name f)) - os.offset f)).

Definition splitFile (src dstDir : string) (chunkSize : Z) : M (list string) :=
  f <- os.Open src ;;
  (* defer f.Close(); info, _ := f.Stat() *)
  fun w =>
    let (info, w1) := os.Stat f w in
    (* buf := make([]byte, chunkSize) *)
    if (chunkSize <? 0)%Z then (Panic "makeslice: len out of range", w1)
    else splitLoop (split_bound f w1) f dstDir chunkSize 0 [] w1.

(** The test of the [logrus.Infof] replacement on one message: the root it
    sends on [rootChan], if any. *)
Definition captureRoot (s : string) : option string :=
  if (12 <? String.length s) && String.eqb (substring 0 12 s) "file uploaded" then
    find (fun f => (String.length f =? 64) || (String.length f =? 66))
         (filepath.SplitList s)
  else None.

Definition uploadArgs (fl : Flags) (file : string) : list string :=
  [ "--url"; rpcURL fl;
    "--key"; privateKey fl;
    "--file"; file;
    "--indexer"; indexerURL fl;
    "--fragment-size"; fmt.dz FragmentSize;
    "--expected-replica"; "1";
    "--skip-tx"; "false";
    "--timeout"; "30m" ].

Definition uploadSingleFragment `{TransferClient} (file : string) : M string := fun w =>
  let args := uploadArgs (flags w) file in
  let '(infos, err) := execUpload (calls w) args (fs w !! file) in
  let w1 := log_call (CallUpload args) w in
  (* rootChan has capacity 1: a second send blocks the command for ever *)
  match omap captureRoot infos with
  | _ :: _ :: _ => (Stuck, w1)
  | sent =>
      match err with
      | Some e => (Err e, w1)
      | None =>
          match sent with
          | root :: _ => (Ok root, w1)
          | [] => (Err "超时未捕获到 root", w1)
          end
      end
  end.

Definition downloadArgs (fl : Flags) (root tmpPath : string) : list string :=
  [ "--url"; rpcURL fl;
    "--indexer"; indexerURL fl;
    "--root"; root;
    "--output"; tmpPath;
    "--timeout"; "20m" ].

(** [downloadCmd.SetArgs(args); downloadCmd.Execute()]. *)
Definition runDownload `{TransferClient} (root tmpPath : string) (w : World)
  : option error * World :=
  let args := downloadArgs (flags w) root tmpPath in
  let '(written, err) := execDownload (calls w) args in
  let w1 := log_call (CallDownload args) w in
  (err, match written with
        | Some data => set_fs (<[tmpPath := data]> (fs w1)) w1
        | None => w1
        end).

(** The [for i, root := range roots] loop of [downloadAndMerge]; [total] is
    [len(roots)] of the whole list. *)
Fixpoint mergeLoop `{TransferClient} (total i : nat) (roots : list string)
    (out : os.File) : M unit :=
  match roots with
  | [] => ret tt
  | root :: rest =>
      fmt.Printf ("[" +:+ fmt.d (i + 1) +:+ "/" +:+ fmt.d total
                  +:+ "] 正在下载 root: " +:+ root +:+ fmt.nl) ;;;
      fun w =>
        (* tmpFile, _ := os.CreateTemp("", "0g-download-*.dat") *)
        let '(tmpFile, _, w1) := os.CreateTemp "0g-download-" ".dat" w in
        match tmpFile with
        | None => (Panic "invalid memory address or nil pointer dereference", w1)
        | Some tf =>
            let tmpPath := os.name tf in
            defer (os.Remove tmpPath)
              (fun w2 =>
                 match runDownload root tmpPath w2 with
                 | (Some err, w3) =>
                     (Err ("下载 root " +:+ root +:+ " 失败: " +:+ err), w3)
                 | (None, w3) =>
                     (* data, _ := os.ReadFile(tmpPath) *)
                     let '(data, _, w4) := os.ReadFile tmpPath w3 in
                     match os.Write out data w4 with
                     | (Some err, _, w5) => (Err err, w5)
                     | (None, out1, w5) =>
                         (fmt.Printf ("分片 " +:+ fmt.d (i + 1) +:+ " 下载完成，"
                                      +:+ fmt.d (length data) +:+ " bytes" +:+ fmt.nl) ;;;
                          mergeLoop total (S i) rest out1) w5
                     end
                 end) w1
        end
  end.

Definition downloadAndMerge `{TransferClient} (roots : list string)
    (outputPath : string) : M unit :=
  out <- os.Create outputPath ;;
  (* defer out.Close() *)
  mergeLoop (length roots) 0 roots out.

Definition fileMD5 `{Md5} (path : string) : M string :=
  f <- os.Open path ;;
  (* defer f.Close() *)
  data <- io.Copy f ;;
  ret (hex.EncodeToString (md5_Sum data)).

(** The [for i, frag := range fragmentFiles] loop of [run]; [roots] is the
    slice appended to so far. *)
Fixpoint uploadLoop `{TransferClient} (total i : nat) (frags : list string)
    (roots : list string) : M (list string) :=
  match frags with
  | [] => ret roots
  | frag :: rest =>
      fmt.Printf (fmt.nl +:+ "[" +:+ fmt.d (i + 1) +:+ "/" +:+ fmt.d total
                  +:+ "] 正在上传分片: " +:+ filepath.Base frag +:+ fmt.nl) ;;;
      root <- map_err (fun err => "上传分片 " +:+ fmt.d (i + 1) +:+ " 失败: " +:+ err)
                (uploadSingleFragment frag) ;;
      fmt.Printf ("分片 " +:+ fmt.d (i + 1) +:+ " 上传成功，root = " +:+ root +:+ fmt.nl) ;;;
      uploadLoop total (S i) rest (roots ++ [root])
  end.

(** The [for i, r := range roots] loop of [run] that prints the roots. *)
Fixpoint printRoots (i : nat) (roots : list string) : M unit :=
  match roots with
  | [] => ret tt
  | r :: rest =>
      fmt.Printf ("分片 " +:+ fmt.d0 2 (i + 1) +:+ " root: " +:+ r +:+ fmt.nl) ;;;
      printRoots (S i) rest
  end.

(** Step 6 of [run], from [restoredMD5, _ := fileMD5(mergedFile)] to
    [return nil]. *)
Definition verify `{Md5} (originMD5 mergedFile : string) : M unit :=
  restoredMD5 <- or_zero "" (fileMD5 mergedFile) ;;
  fmt.Printf (fmt.nl +:+ "恢复文件 MD5: " +:+ restoredMD5 +:+ fmt.nl) ;;;
  (if String.eqb originMD5 restoredMD5
   then fmt.Println "MD5 校验通过！文件 100% 完整恢复"
   else fmt.Println "MD5 校验失败！") ;;;
  ret tt.

Definition run `{TransferClient} `{Md5} : M unit :=
  fl <- get_flags ;;
  (* 1. *)
  originMD5 <- fileMD5 (filePath fl) ;;
  fmt.Printf ("原始文件 MD5: " +:+ originMD5 +:+ fmt.nl) ;;;
  (* 2. *)
  tmpDir <- os.MkdirTemp "0g-split-" ;;
  defer (os.RemoveAll tmpDir)
    ((* 3. *)
     fragmentFiles <- splitFile (filePath fl) tmpDir FragmentSize ;;
     fmt.Printf ("成功切分成 " +:+ fmt.d (length fragmentFiles)
                 +:+ " 个分片，每个约 400MB" +:+ fmt.nl) ;;;
     (* 4. *)
     roots <- uploadLoop (length fragmentFiles) 0 fragmentFiles [] ;;
     fmt.Printf (fmt.nl +:+ "=== 所有分片上传完成 ===" +:+ fmt.nl) ;;;
     printRoots 0 roots ;;;
     (* 5. *)
     let mergedFile := filePath fl +:+ ".restored" in
     downloadAndMerge roots mergedFile ;;;
     (* 6. *)
     verify originMD5 mergedFile).

(** The [Run] function of the root command: the exit status of the process,
    if it ends. [logrus.Fatal] exits with status 1; a panic that reaches the
    top ends the process with status 2. *)
Definition main `{TransferClient} `{Md5} (w : World) : option Z * World :=
  match run w with
  | (Ok _, w') => (Some 0%Z, w')
  | (Err _, w') => (Some 1%Z, w')
  | (Panic _, w') => (Some 2%Z, w')
  | (Stuck, w') => (None, w')
  end.

(* ===================================================================== *)
(** ** Vocabulary of the statements *)
(* ===================================================================== *)

(** Last and first character of a string, to tell paths and printed lines
    apart. *)
Fixpoint last_char (s : string) : option ascii :=
  match s with
  | EmptyString => None
  | String c EmptyString => Some c
  | String _ s' => last_char s'
  end.

(** [n] more system calls made. *)
Definition ticks (n : nat) (w : World) : World :=
  mkWorld (flags w) (fs w) (stdout w) (n + clock w) (faults w) (shorts w) (tmpseq w)
    (calls w).

(** Division rounding up. *)
Definition ceil_div (a b : nat) : nat := (a + b - 1) / b.

(** The bytes of fragment [k] of [data] cut in chunks of [size]. *)
Definition chunk_at (size : nat) (data : list byte) (k : nat) : list byte :=
  take size (drop (k * size) data).

(** The file system after fragments [i], ..., [i + k - 1] of [data] have been
    written below [dir]. *)
Fixpoint write_fragments (dir : string) (size : nat) (data : list byte)
    (i k : nat) (m : gmap string (list byte)) : gmap string (list byte) :=
  match k with
  | O => m
  | S k' => write_fragments dir size data (S i) k' (<[fragPath dir i := chunk_at size data i]> m)
  end.

(** The store answers a download of [root] with [data], whatever was run
    before and wherever the output goes. *)
Definition serves `{TransferClient} (fl : Flags) (root : string) (data : list byte) : Prop :=
  ∀ hist tmpPath,
    execDownload hist (downloadArgs fl root tmpPath) = (Some data, None).

(** The store fails every download of [root] with [cause]. *)
Definition refuses `{TransferClient} (fl : Flags) (root : string) (cause : error) : Prop :=
  ∀ hist tmpPath, ∃ written,
    execDownload hist (downloadArgs fl root tmpPath) = (written, Some cause).

(** What the loop of [downloadAndMerge] appends to the output when the
    downloads give [datas] and the loop starts at system call [c]: the
    fragments whose [os.ReadFile] does not fail. *)
Fixpoint merged_bytes (plan : gmap nat string) (c : nat) (datas : list (list byte))
  : list byte :=
  match datas with
  | [] => []
  | d :: ds =>
      (match plan !! (c + 1) with None => d | Some _ => [] end)
        ++ merged_bytes plan (c + 3) ds
  end.

(** [root] is what [uploadSingleFragment] returned for [frag]. *)
Definition uploaded_as `{TransferClient} (frag root : string) : Prop :=
  ∃ wa wb, uploadSingleFragment frag wa = (Ok root, wb).

(** [uploadSingleFragment] failed with [cause] on [frag]. *)
Definition upload_failed `{TransferClient} (frag : string) (cause : error) : Prop :=
  ∃ wa wb, uploadSingleFragment frag wa = (Err cause, wb).


(** The [--file] arguments of the uploads in a call log, oldest first. *)
Definition uploads (cs : list call) : list string :=
  omap (fun c => match c with CallUpload args => Some (nth 5 args "") | _ => None end) cs.

(** The [--root] arguments of the downloads in a call log, oldest first. *)
Definition downloads (cs : list call) : list string :=
  omap (fun c => match c with CallDownload args => Some (nth 5 args "") | _ => None end) cs.

(** The line the program prints when the digests differ. *)
Definition verdict_failed : string := "MD5 校验失败！" +:+ fmt.nl.
Definition verdict_ok : string := "MD5 校验通过！文件 100% 完整恢复" +:+ fmt.nl.

(** [w'] has the output of [w] followed by lines other than the verdict of
    failure. *)
Definition prints_plain (w w' : World) : Prop :=
  ∃ lines, stdout w' = stdout w ++ lines ∧ Forall (λ l, l ≠ verdict_failed) lines.

(** The worlds have the same flags, standard output, fault plan and call
    log. *)
Definition same_io (w w' : World) : Prop :=
  flags w' = flags w ∧ stdout w' = stdout w ∧ faults w' = faults w
  ∧ calls w' = calls w.

Definition first_char (s : string) : option ascii :=
  match s with
  | String c _ => Some c
  | EmptyString => None
  end.

(** [run] gets to its upload loop: the digest of the source is [originMD5],
    the fragments [frags] are in the directory [tmpDir], and the loop starts
    in [wu]. *)
Definition reaches_upload `{Md5} (w : World) (originMD5 tmpDir : string)
    (frags : list string) (wu : World) : Prop :=
  ∃ w1 w2 w3,
    fileMD5 (filePath (flags w)) w = (Ok originMD5, w1)
    ∧ os.MkdirTemp "0g-split-"
        (put_line ("原始文件 MD5: " +:+ originMD5 +:+ fmt.nl) w1) = (Ok tmpDir, w2)
    ∧ splitFile (filePath (flags w)) tmpDir FragmentSize w2 = (Ok frags, w3)
    ∧ wu = put_line ("成功切分成 " +:+ fmt.d (length frags)
                     +:+ " 个分片，每个约 400MB" +:+ fmt.nl) w3.

(** [run] gets to [downloadAndMerge], which it calls on [roots] in [wd]. *)
Definition reaches_download `{TransferClient} `{Md5} (w : World)
    (originMD5 tmpDir : string) (frags roots : list string) (wd : World) : Prop :=
  ∃ wu wp,
    reaches_upload w originMD5 tmpDir frags wu
    ∧ uploadLoop (length frags) 0 frags [] wu = (Ok roots, wp)
    ∧ printRoots 0 roots
        (put_line (fmt.nl +:+ "=== 所有分片上传完成 ===" +:+ fmt.nl) wp) = (Ok tt, wd).

(* ===================================================================== *)
(** ** Sample machines, stores and digests *)
(* ===================================================================== *)

Module Sample.

Definition bytes (s : string) : list byte := list_byte_of_string s.

Definition flags0 : Flags :=
  mkFlags "https://rpc.0g.ai" "0123abcd" "/data/in.bin" "https://indexer.0g.ai".

(** A machine holding the source file with the given bytes and fault plan. *)
Definition world (data : list byte) (plan : gmap nat string) : World :=
  mkWorld flags0 (<["/data/in.bin" := data]> ∅) [] 0 plan ∅ 0 [].

Fixpoint find_root (table : list (string * list byte)) (root : string)
  : option (list byte) :=
  match table with
  | [] => None
  | (r, data) :: rest => if String.eqb r root then Some data else find_root rest root
  end.

(** A store that holds the given roots: a download of a root it holds
    succeeds with the bytes stored under it, every other download fails; an
    upload succeeds and logs its root. *)
Definition store (table : list (string * list byte)) : TransferClient := {|
  execUpload := fun _ _ _ => (["file uploaded, root = 0x00"], None);
  execDownload := fun _ args =>
    match find_root table (nth 5 args "") with
    | Some data => (Some data, None)
    | None => (None, Some "file not found")
    end
|}.

(** A one-byte checksum standing for the digest. *)
Definition sum8 : Md5 := fun data =>
  [default x00 (Byte.of_N (fold_right (fun b acc => (Byte.to_N b + acc) mod 256)%N 7%N data))].

Definition three_fragments : list (string * list byte) :=
  [("r0", bytes "abcd"); ("r1", bytes "efgh"); ("r2", bytes "ij")].

End Sample.

(* ===================================================================== *)
(** ** Strings and paths *)
(* ===================================================================== *)

Lemma string_app_cons x (a b : string) : String x a +:+ b = String x (a +:+ b).
Proof. reflexivity. Qed.

Lemma string_app_nil (b : string) : EmptyString +:+ b = b.
Proof. reflexivity. Qed.

Lemma string_app_assoc (a b c : string) : (a +:+ b) +:+ c = a +:+ (b +:+ c).
Proof.
  induction a as [|x a IH]; [reflexivity|].
  rewrite !string_app_cons. f_equal. exact IH.
Qed.

Lemma string_app_length (a b : string) :
  String.length (a +:+ b) = String.length a + String.length b.
Proof.
  induction a as [|x a IH]; [reflexivity|].
  rewrite string_app_cons. simpl. f_equal. exact IH.
Qed.

Lemma string_app_inj_r (a b t : string) : a +:+ t = b +:+ t → a = b.
Proof.
  revert b. induction a as [|x a IH]; intros [|y b] E.
  - reflexivity.
  - apply (f_equal String.length) in E.
    rewrite !string_app_length in E. simpl in E. lia.
  - apply (f_equal String.length) in E.
    rewrite !string_app_length in E. simpl in E. lia.
  - rewrite !string_app_cons in E. injection E as -> E. f_equal. now apply IH.
Qed.

Lemma prefix_app (a b : string) : String.prefix a (a +:+ b) = true.
Proof.
  induction a as [|x a IH]; [now destruct b|].
  rewrite string_app_cons. simpl.
  destruct (ascii_dec x x); [exact IH | contradiction].
Qed.

Lemma last_char_app (a b : string) :
  b ≠ EmptyString → last_char (a +:+ b) = last_char b.
Proof.
  intros Hb. induction a as [|x a IH]; [reflexivity|].
  rewrite string_app_cons. simpl.
  rewrite <- IH. destruct (a +:+ b) eqn:E; [|reflexivity].
  destruct a; [rewrite string_app_nil in E; contradiction | discriminate].
Qed.

Lemma of_uint_zeros k u : Nat.of_uint (fmt.zeros k u) = Nat.of_uint u.
Proof. induction k as [|k IH]; simpl; [reflexivity | exact IH]. Qed.

Lemma string_of_uint_inj u v :
  NilEmpty.string_of_uint u = NilEmpty.string_of_uint v → u = v.
Proof.
  intros E. apply (f_equal NilEmpty.uint_of_string) in E.
  rewrite !NilEmpty.usu in E. now injection E.
Qed.

Lemma d0_inj width i j : fmt.d0 width i = fmt.d0 width j → i = j.
Proof.
  unfold fmt.d0. intros E. apply string_of_uint_inj in E.
  apply (f_equal Nat.of_uint) in E.
  now rewrite !of_uint_zeros, !Unsigned.of_to in E.
Qed.

Lemma fragPath_inj dir i j : fragPath dir i = fragPath dir j → i = j.
Proof.
  unfold fragPath, filepath.Join, fragName. intros E.
  do 3 apply String.app_inj in E.
  apply string_app_inj_r in E. now apply d0_inj in E.
Qed.

Lemma fragPath_below dir i : os.below dir (fragPath dir i) = true.
Proof.
  unfold os.below, fragPath, filepath.Join.
  rewrite <- string_app_assoc, prefix_app. apply orb_true_r.
Qed.

Lemma temp_name_not_restored before n (p : string) :
  os.temp_name before ".dat" n ≠ p +:+ ".restored".
Proof.
  unfold os.temp_name. intros E. apply (f_equal last_char) in E.
  rewrite <- !string_app_assoc in E.
  rewrite !last_char_app in E by discriminate. discriminate.
Qed.

(* ===================================================================== *)
(** ** System calls *)
(* ===================================================================== *)

Lemma write_at_fresh data : os.write_at 0 data [] = data.
Proof. unfold os.write_at. simpl. rewrite drop_nil. apply app_nil_r. Qed.

Lemma write_at_end data old : os.write_at (length old) data old = old ++ data.
Proof.
  unfold os.write_at. rewrite Nat.sub_diag. simpl. rewrite app_nil_r.
  rewrite take_ge by lia. rewrite drop_ge by lia. now rewrite app_nil_r.
Qed.

Ltac wsimpl :=
  cbn [flags fs stdout clock faults shorts tmpseq calls set_fs put_line tick next_tmp
       log_call ticks os.name os.offset os.advance fst snd] in *.

Section os_calls.
Variable w : World.


Lemma Read_eof f size :
  faults w !! clock w = None → size ≠ 0%Z →
  length (os.content w (os.name f)) ≤ os.offset f →
  os.Read f size w = ([], Some EOF, f, ticks 1 w).
Proof.
  intros Hf Hs Hlen. unfold os.Read, os.syscall.
  destruct (Z.eqb_spec size 0) as [|_]; [contradiction|]. rewrite Hf.
  change (os.content (tick w) (os.name f)) with (os.content w (os.name f)).
  now rewrite drop_ge.
Qed.

Lemma Read_data f size :
  faults w !! clock w = None → (0 < size)%Z →
  os.offset f < length (os.content w (os.name f)) →
  let chunk :=
    take (Z.to_nat (Z.min size os.maxRW))
      (drop (os.offset f) (os.content w (os.name f))) in
  os.Read f size w = (chunk, None, os.advance (length chunk) f, ticks 1 w)
  ∧ 0 < length chunk.
Proof.
  intros Hf Hs Hlen chunk. unfold os.Read, os.syscall.
  destruct (Z.eqb_spec size 0) as [|_]; [lia|]. rewrite Hf.
  change (os.content (tick w) (os.name f)) with (os.content w (os.name f)).
  fold chunk.
  assert (Hrest : length (drop (os.offset f) (os.content w (os.name f))) ≠ 0)
    by (rewrite length_drop; lia).
  assert (Hcap : (0 < Z.min size os.maxRW)%Z) by (unfold os.maxRW; lia).
  destruct (drop (os.offset f) (os.content w (os.name f))) as [|b rest] eqn:E;
    [contradiction|].
  assert (Hchunk : take (Z.to_nat ((size `min` os.maxRW) `min` Z.of_nat (length (b :: rest))))
                     (b :: rest) = chunk).
  { unfold chunk.
    destruct (Z.min_spec (size `min` os.maxRW) (Z.of_nat (length (b :: rest))))
      as [[_ ->]|[Hle ->]]; [reflexivity|].
    rewrite Nat2Z.id, !take_ge; [reflexivity | lia | lia]. }
  rewrite Hchunk. split; [reflexivity|].
  unfold chunk. rewrite length_take.
  change (length (b :: rest)) with (S (length rest)). lia.
Qed.

Lemma Create_fault path cause :
  faults w !! clock w = Some cause →
  os.Create path w = (Err (PathError "open" path cause), ticks 1 w).
Proof. intros Hf. unfold os.Create, os.syscall. now rewrite Hf. Qed.

Lemma Create_ok path :
  faults w !! clock w = None →
  os.Create path w = (Ok (os.mkFile path 0), set_fs (<[path := []]> (fs w)) (ticks 1 w)).
Proof. intros Hf. unfold os.Create, os.syscall. now rewrite Hf. Qed.


Lemma Write_ok f data :
  faults w !! clock w = None →
  os.Write f data w =
  (None, os.advance (length data) f,
   set_fs (<[os.name f := os.write_at (os.offset f) data (os.content w (os.name f))]> (fs w))
          (ticks 1 w)).
Proof. intros Hf. unfold os.Write, os.syscall. now rewrite Hf. Qed.

Lemma ReadFile_fault path cause :
  faults w !! clock w = Some cause →
  os.ReadFile path w = ([], Some (PathError "open" path cause), ticks 1 w).
Proof. intros Hf. unfold os.ReadFile, os.syscall. now rewrite Hf. Qed.

Lemma ReadFile_ok path data :
  faults w !! clock w = None → fs w !! path = Some data →
  os.ReadFile path w = (data, None, ticks 1 w).
Proof.
  intros Hf Hp. unfold os.ReadFile, os.syscall. rewrite Hf.
  change (fs (tick w)) with (fs w). now rewrite Hp.
Qed.

Lemma Open_ok path data :
  faults w !! clock w = None → fs w !! path = Some data →
  os.Open path w = (Ok (os.mkFile path 0), ticks 1 w).
Proof.
  intros Hf Hp. unfold os.Open, os.syscall. rewrite Hf.
  change (fs (tick w)) with (fs w). now rewrite Hp.
Qed.

Lemma Stat_world f : snd (os.Stat f w) = ticks 1 w.
Proof. unfold os.Stat, os.syscall. now destruct (faults w !! clock w). Qed.

Lemma Copy_ok f :
  faults w !! clock w = None →
  io.Copy f w = (Ok (drop (os.offset f) (os.content w (os.name f))), ticks 1 w).
Proof. intros Hf. unfold io.Copy, os.syscall. now rewrite Hf. Qed.

Lemma CreateTemp_ok before after :
  faults w !! clock w = None →
  let path := os.temp_name before after (tmpseq w) in
  os.CreateTemp before after w =
  (Some (os.mkFile path 0), None,
   set_fs (<[path := []]> (fs w)) (next_tmp (ticks 1 w))).
Proof. intros Hf path. unfold os.CreateTemp, os.syscall. now rewrite Hf. Qed.

Lemma Remove_ok path :
  faults w !! clock w = None →
  os.Remove path w = set_fs (delete path (fs w)) (ticks 1 w).
Proof. intros Hf. unfold os.Remove, os.syscall. now rewrite Hf. Qed.
End os_calls.

Lemma splitLoop_step fuel f dir size i files w data :
  fs w !! os.name f = Some data →
  faults w !! clock w = None →
  faults w !! S (clock w) = None →
  faults w !! S (S (clock w)) = None →
  (0 < size)%Z →
  os.offset f < length data →
  let chunk := take (Z.to_nat (Z.min size os.maxRW)) (drop (os.offset f) data) in
  splitLoop (S fuel) f dir size i files w =
  splitLoop fuel (os.advance (length chunk) f) dir size (S i)
    (files ++ [fragPath dir i])
    (set_fs (<[fragPath dir i := chunk]> (fs w)) (ticks 3 w)).
Proof.
  intros Hsrc H0 H1 H2 Hsize Hoff chunk.
  assert (Hc : os.content w (os.name f) = data) by (unfold os.content; now rewrite Hsrc).
  cbn [splitLoop].
  pose proof (Read_data w f size H0 Hsize) as HR.
  rewrite Hc in HR. destruct (HR Hoff) as [-> Hlen]. fold chunk in Hlen |- *.
  destruct (Nat.eqb_spec (length chunk) 0) as [E|_]; [lia|].
  rewrite Create_ok by exact H1.
  rewrite Write_ok by exact H2.
  cbn [os.name os.offset]. unfold os.content. wsimpl.
  rewrite lookup_insert_eq. cbn [default]. rewrite write_at_fresh, insert_insert_eq.
  reflexivity.
Qed.

Lemma splitLoop_eof fuel f dir size i files w :
  faults w !! clock w = None → size ≠ 0%Z →
  length (os.content w (os.name f)) ≤ os.offset f →
  splitLoop (S fuel) f dir size i files w = (Ok files, ticks 1 w).
Proof.
  intros H0 Hs Hlen. cbn [splitLoop]. now rewrite Read_eof.
Qed.


Lemma ticks_ticks a b w : ticks a (ticks b w) = ticks (a + b) w.
Proof. unfold ticks. cbn. now rewrite Nat.add_assoc. Qed.

Lemma ticks_set_fs a m w : ticks a (set_fs m w) = set_fs m (ticks a w).
Proof. reflexivity. Qed.

Lemma set_fs_set_fs m m' w : set_fs m (set_fs m' w) = set_fs m w.
Proof. reflexivity. Qed.

Lemma set_fs_id w : set_fs (fs w) w = w.
Proof. now destruct w. Qed.

Lemma ticks_0 w : ticks 0 w = w.
Proof. now destruct w. Qed.

Lemma lookup_write_fragments_other dir size data i k m p :
  (∀ j, i ≤ j < i + k → p ≠ fragPath dir j) →
  write_fragments dir size data i k m !! p = m !! p.
Proof.
  revert i m. induction k as [|k IH]; intros i m Hp; [reflexivity|].
  cbn [write_fragments]. rewrite IH by (intros j Hj; apply Hp; lia).
  apply lookup_insert_ne. apply not_eq_sym, Hp. lia.
Qed.


Lemma lookup_write_fragments_outside dir size data i k m p :
  os.below dir p = false →
  write_fragments dir size data i k m !! p = m !! p.
Proof.
  intros Hp. apply lookup_write_fragments_other. intros j _ ->.
  now rewrite fragPath_below in Hp.
Qed.

Lemma read_size_pos size : (0 < size)%Z → 0 < Z.to_nat (Z.min size os.maxRW).
Proof. unfold os.maxRW. lia. Qed.

Section split.
Variables (dir : string) (size : Z) (data : list byte).
Hypothesis Hsize : (0 < size)%Z.
Let sz := Z.to_nat (Z.min size os.maxRW).

Lemma splitLoop_iter k : ∀ fuel f i files w,
  fs w !! os.name f = Some data →
  os.offset f = (i * sz) `min` length data →
  (∀ j, i ≤ j < i + k → j * sz < length data) →
  (∀ j, i ≤ j < i + k → fragPath dir j ≠ os.name f) →
  (∀ t, clock w ≤ t < clock w + 3 * k → faults w !! t = None) →
  splitLoop (k + fuel) f dir size i files w =
  splitLoop fuel (os.mkFile (os.name f) (((i + k) * sz) `min` length data))
    dir size (i + k) (files ++ map (fragPath dir) (seq i k))
    (set_fs (write_fragments dir sz data i k (fs w)) (ticks (3 * k) w)).
Proof.
  induction k as [|k IH]; intros fuel f i files w Hsrc Hoff Hlt Hne Hq.
  - cbn [Nat.add Nat.mul seq map write_fragments]. rewrite Nat.add_0_r, app_nil_r.
    rewrite ticks_0, set_fs_id, <- Hoff. now destruct f.
  - cbn [Nat.add].
    assert (Hi : i * sz < length data) by (apply Hlt; lia).
    rewrite (splitLoop_step _ _ _ _ _ _ _ data); try (apply Hq; lia); try assumption;
      [|lia].
    rewrite Hoff, Nat.min_l by lia. fold sz. fold (chunk_at sz data i).
    rewrite IH.
    + cbn [os.name os.advance]. wsimpl.
      replace (S i + k) with (i + S k) by lia.
      rewrite <- app_assoc. cbn [app seq map write_fragments].
      rewrite ticks_set_fs, set_fs_set_fs, ticks_ticks.
      replace (3 * k + 3) with (3 * S k) by lia. reflexivity.
    + cbn [os.name os.advance]. wsimpl. rewrite lookup_insert_ne; [assumption|].
      apply Hne. lia.
    + cbn [os.offset os.advance]. unfold chunk_at. rewrite length_take, length_drop.
      rewrite Hoff. nia.
    + intros j Hj. apply Hlt. lia.
    + intros j Hj. cbn [os.name os.advance]. apply Hne. lia.
    + intros t Ht. wsimpl. apply Hq. lia.
Qed.
End split.

Lemma ceil_div_lt a b j : 0 < b → j < ceil_div a b ↔ j * b < a.
Proof.
  intros Hb. unfold ceil_div.
  pose proof (Nat.div_mod_eq (a + b - 1) b) as E.
  pose proof (Nat.mod_upper_bound (a + b - 1) b) as Hr.
  split; intros H; nia.
Qed.

Lemma ceil_div_le a b : 0 < b → a ≤ ceil_div a b * b.
Proof.
  intros Hb. destruct (Nat.le_gt_cases a (ceil_div a b * b)) as [H|H]; [exact H|].
  apply (ceil_div_lt a b _ Hb) in H. lia.
Qed.

Lemma ceil_div_0 b : 0 < b → ceil_div 0 b = 0.
Proof.
  intros Hb. destruct (ceil_div 0 b) as [|n] eqn:E; [reflexivity|].
  assert (H : n < ceil_div 0 b) by lia. apply ceil_div_lt in H; lia.
Qed.





Lemma Stat_ok w f :
  faults w !! clock w = None →
  os.Stat f w = (Some (length (os.content w (os.name f))), ticks 1 w).
Proof. intros Hf. unfold os.Stat, os.syscall. now rewrite Hf. Qed.

Section splitFile.
Variables (src dir : string) (size : Z) (data : list byte) (w : World).
Hypothesis Hsize : (0 < size)%Z.
Hypothesis Hsrc : fs w !! src = Some data.
Hypothesis Hdir : os.below dir src = false.
Let sz := Z.to_nat (Z.min size os.maxRW).
Let n := ceil_div (length data) sz.

Lemma fragPath_not_src j : fragPath dir j ≠ src.
Proof using Hdir. intros E. rewrite <- E, fragPath_below in Hdir. discriminate. Qed.

(** The first [k] iterations, when no system call fails before the read
    of iteration [k]. *)
Lemma splitFile_iter k :
  k ≤ n →
  (∀ t, clock w ≤ t < clock w + 2 + 3 * k → faults w !! t = None) →
  splitFile src dir size w =
  splitLoop (S (S (length data)) - k)
    (os.mkFile src ((k * sz) `min` length data)) dir size k
    (map (fragPath dir) (seq 0 k))
    (set_fs (write_fragments dir sz data 0 k (fs w)) (ticks (3 * k + 2) w)).
Proof using Hsize Hsrc Hdir.
  intros Hk Hq. pose proof (read_size_pos size Hsize) as Hpos. fold sz in Hpos.
  unfold splitFile, bind.
  rewrite (Open_ok w src data) by (try apply Hq; try assumption; lia).
  rewrite Stat_ok by (wsimpl; apply Hq; lia).
  destruct (Z.ltb_spec size 0) as [|_]; [lia|].
  assert (Hc : os.content (ticks 1 (ticks 1 w)) src = data).
  { unfold os.content. wsimpl. now rewrite Hsrc. }
  unfold split_bound. cbn [os.name os.offset]. rewrite Hc, Nat.sub_0_r.
  assert (Hkn : ∀ j, j < k → j * sz < length data).
  { intros j Hj. apply ceil_div_lt; [subst sz; unfold os.maxRW; lia | fold n; lia]. }
  assert (Hlen : k ≤ length data).
  { destruct k as [|k']; [lia|]. specialize (Hkn k'). nia. }
  replace (S (S (length data))) with (k + (S (S (length data)) - k)) at 1 by lia.
  rewrite (splitLoop_iter dir size data Hsize k); wsimpl.
  - cbn [Nat.add app]. rewrite ticks_ticks, ticks_ticks.
    replace (3 * k + 1 + 1) with (3 * k + 2) by lia. reflexivity.
  - exact Hsrc.
  - cbn. lia.
  - intros j Hj. apply Hkn. lia.
  - intros j _. apply fragPath_not_src.
  - intros t Ht. apply Hq. lia.
Qed.

Lemma splitFile_ok :
  (∀ t, clock w ≤ t < clock w + 3 * n + 3 → faults w !! t = None) →
  splitFile src dir size w =
  (Ok (map (fragPath dir) (seq 0 n)),
   set_fs (write_fragments dir sz data 0 n (fs w)) (ticks (3 * n + 3) w)).
Proof using Hsize Hsrc Hdir.
  intros Hq. pose proof (read_size_pos size Hsize) as Hsz. fold sz in Hsz.
  rewrite (splitFile_iter n) by (try lia; intros; apply Hq; lia).
  assert (Hn : n ≤ length data).
  { destruct n as [|k'] eqn:E; [lia|].
    assert (H : k' < n) by lia. apply ceil_div_lt in H; [nia | subst sz; unfold os.maxRW; lia]. }
  replace (S (S (length data)) - n) with (S (S (length data) - n)) by lia.
  rewrite splitLoop_eof.
  - rewrite ticks_set_fs, ticks_ticks.
    replace (1 + (3 * n + 2)) with (3 * n + 3) by lia. reflexivity.
  - wsimpl. apply Hq. lia.
  - lia.
  - unfold os.content. wsimpl.
    rewrite lookup_write_fragments_other, Hsrc
      by (intros j _; apply not_eq_sym, fragPath_not_src).
    cbn [default]. assert (Hpos : 0 < sz) by (subst sz; unfold os.maxRW; lia).
    pose proof (ceil_div_le (length data) sz Hpos) as H. fold n in H.
    cbn [os.offset]. unfold id. lia.
Qed.

End splitFile.

(* ===================================================================== *)
(** ** [splitFile]: fragments on disk *)
(* ===================================================================== *)


Lemma Read_fs f size w c e f1 w1 : os.Read f size w = (c, e, f1, w1) → fs w1 = fs w.
Proof.
  unfold os.Read, os.syscall. destruct (size =? 0)%Z; [now intros [= <- <- <- <-]|].
  destruct (faults w !! clock w); [now intros [= <- <- <- <-]|].
  destruct (drop _ _); now intros [= <- <- <- <-].
Qed.

Lemma Create_inv p w out w2 :
  os.Create p w = (Ok out, w2) → out = os.mkFile p 0 ∧ fs w2 = <[p := []]> (fs w).
Proof.
  unfold os.Create, os.syscall. destruct (faults w !! clock w); [discriminate|].
  now intros [= <- <-].
Qed.

Lemma Write_inv out c w out' w3 :
  os.Write out c w = (None, out', w3) →
  fs w3 = <[os.name out := os.write_at (os.offset out) c (os.content w (os.name out))]> (fs w).
Proof.
  unfold os.Write, os.syscall. destruct (faults w !! clock w); [discriminate|].
  now intros [= <- <-].
Qed.



Lemma splitLoop_zero_read fuel f dir size i files w err f1 w1 :
  os.Read f size w = ([], err, f1, w1) →
  fs w1 = fs w ∧
  (splitLoop (S fuel) f dir size i files w = (Ok files, w1)
   ∨ ∃ e, e ≠ EOF ∧ splitLoop (S fuel) f dir size i files w = (Err e, w1)).
Proof.
  intros HR. split; [exact (Read_fs _ _ _ _ _ _ _ HR)|].
  cbn [splitLoop]. rewrite HR. cbn [length Nat.eqb].
  destruct err as [e|]; [|now left].
  destruct (String.eqb_spec e "EOF") as [->|Hne]; cbn [negb]; [now left|].
  right. exists e. split; [exact Hne | reflexivity].
Qed.

Lemma splitLoop_nonempty dir size fuel : ∀ f i files w files' w',
  splitLoop fuel f dir size i files w = (Ok files', w') →
  Forall (λ p, (∃ j, j < i ∧ p = fragPath dir j) ∧ os.content w p ≠ []) files →
  Forall (λ p, os.content w' p ≠ []) files'.
Proof.
  induction fuel as [|fuel IH]; intros f i files w files' w' Hrun Hfiles;
    [discriminate|].
  cbn [splitLoop] in Hrun.
  destruct (os.Read f size w) as [[[chunk err] f1] w1] eqn:HR.
  pose proof (Read_fs _ _ _ _ _ _ _ HR) as Hfs1.
  assert (Hkeep : Forall (λ p, os.content w1 p ≠ []) files).
  { eapply Forall_impl; [exact Hfiles|]. intros p [_ Hp]. unfold os.content in *.
    now rewrite Hfs1. }
  destruct (Nat.eqb_spec (length chunk) 0) as [Hz|Hnz].
  - destruct err as [e|].
    + destruct (negb (e =? "EOF")%string); [discriminate|].
      injection Hrun as <- <-. exact Hkeep.
    + injection Hrun as <- <-. exact Hkeep.
  - destruct (os.Create (fragPath dir i) w1) as [[out| | |] w2] eqn:HC; try discriminate.
    apply Create_inv in HC as [-> Hfs2].
    destruct (os.Write _ chunk w2) as [[[e|] out'] w3] eqn:HW; [discriminate|].
    apply Write_inv in HW. cbn [os.name os.offset] in HW.
    unfold os.content in HW. rewrite Hfs2, lookup_insert_eq in HW.
    cbn [default] in HW. unfold id in HW. rewrite write_at_fresh, insert_insert_eq in HW.
    apply IH in Hrun; [exact Hrun|].
    apply Forall_app. split.
    + eapply Forall_impl; [exact Hfiles|]. intros p [[j [Hj ->]] Hp]. split.
      * exists j. split; [lia | reflexivity].
      * unfold os.content in *. rewrite HW, lookup_insert_ne, Hfs1; [exact Hp|].
        intros E. apply fragPath_inj in E. lia.
    + constructor; [|constructor]. split.
      * exists i. split; [lia | reflexivity].
      * unfold os.content. rewrite HW, lookup_insert_eq. cbn [default]. unfold id.
        intros ->. now apply Hnz.
Qed.

(** C7: every fragment [splitFile] returns holds at least one byte, and a
    read of zero bytes ends the loop without creating a file: the loop returns
    the fragments it has, or the error of the read, and the file system is as
    before the read. *)
Theorem splitFile_no_empty_fragment src dir size w :
  (∀ files w', splitFile src dir size w = (Ok files, w') →
     Forall (λ p, ∃ data, fs w' !! p = Some data ∧ 0 < length data) files)
  ∧ (∀ fuel f i files err f1 w1,
       os.Read f size w = ([], err, f1, w1) →
       fs w1 = fs w ∧
       (splitLoop (S fuel) f dir size i files w = (Ok files, w1)
        ∨ ∃ e, e ≠ EOF ∧ splitLoop (S fuel) f dir size i files w = (Err e, w1))).
Proof.
  split; [|intros fuel f i files err f1 w1 HR; now apply (splitLoop_zero_read _ _ _ _ _ _ _ err f1)].
  intros files w' Hrun. unfold splitFile, bind in Hrun.
  destruct (os.Open src w) as [[f| | |] w1] eqn:HO; try discriminate.
  destruct (os.Stat f w1) as [info w2] eqn:HS.
  destruct (size <? 0)%Z; [discriminate|].
  apply splitLoop_nonempty in Hrun; [|constructor].
  eapply Forall_impl; [exact Hrun|]. intros p Hp. unfold os.content in Hp.
  destruct (fs w' !! p) as [data|]; [|now contradiction Hp].
  exists data. split; [reflexivity|]. destruct data; [now contradiction Hp | simpl; lia].
Qed.

Lemma splitFile_no_empty_fragment_witness :
  Forall (λ p, ∃ data,
            fs (snd (splitFile "/data/in.bin" "/tmp/d" 4
                       (Sample.world (Sample.bytes "abcdefghij") ∅))) !! p = Some data
            ∧ 0 < length data)
    ["/tmp/d/fragment_000.dat"; "/tmp/d/fragment_001.dat"; "/tmp/d/fragment_002.dat"]
  ∧ splitLoop 1 (os.mkFile "/data/in.bin" 0) "/tmp/d" 4 0 [] (Sample.world [] ∅)
    = (Ok [], tick (Sample.world [] ∅)).
Proof.
  split.
  - apply (proj1 (splitFile_no_empty_fragment "/data/in.bin" "/tmp/d" 4
                    (Sample.world (Sample.bytes "abcdefghij") ∅))).
    vm_compute. reflexivity.
  - destruct (proj2 (splitFile_no_empty_fragment "/data/in.bin" "/tmp/d" 4
                       (Sample.world [] ∅))
                0 (os.mkFile "/data/in.bin" 0) 0 [] (Some EOF)
                (os.mkFile "/data/in.bin" 0) (tick (Sample.world [] ∅)))
      as [_ [Hok | (e & _ & Herr)]].
    + vm_compute. reflexivity.
    + exact Hok.
    + vm_compute in Herr. discriminate Herr.
Defined.








(* ===================================================================== *)
(** ** [downloadAndMerge] and [fileMD5] *)
(* ===================================================================== *)

Lemma Remove_other path w p :
  p ≠ path → fs (os.Remove path w) !! p = fs w !! p.
Proof.
  intros Hp. unfold os.Remove, os.syscall. destruct (faults w !! clock w); [reflexivity|].
  cbn [fs set_fs tick]. now apply lookup_delete_ne.
Qed.

Lemma Remove_frame path w :
  faults (os.Remove path w) = faults w ∧ flags (os.Remove path w) = flags w
  ∧ stdout (os.Remove path w) = stdout w ∧ calls (os.Remove path w) = calls w.
Proof.
  unfold os.Remove, os.syscall. now destruct (faults w !! clock w).
Qed.

Section merge.
Context `{TransferClient}.
Variables (outPath : string) (total : nat).
Hypothesis Hout : ∀ n, os.temp_name "0g-download-" ".dat" n ≠ outPath.

Lemma mergeLoop_spec roots : ∀ datas i out w acc,
  Forall2 (serves (flags w)) roots datas →
  os.name out = outPath →
  fs w !! outPath = Some acc →
  os.offset out = length acc →
  (∀ j, j < length roots →
     faults w !! (clock w + 3 * j) = None ∧ faults w !! (clock w + 3 * j + 2) = None) →
  ∃ w', mergeLoop total i roots out w = (Ok tt, w')
        ∧ fs w' !! outPath = Some (acc ++ merged_bytes (faults w) (clock w) datas)
        ∧ faults w' = faults w ∧ flags w' = flags w.
Proof using Hout.
  induction roots as [|root rest IH]; intros datas i out w acc Hserves Hname Hacc Hoff Hq.
  - apply Forall2_nil_inv_l in Hserves as ->. exists w. cbn [mergeLoop merged_bytes].
    rewrite app_nil_r. now repeat split.
  - apply Forall2_cons_inv_l in Hserves as (data & ds & Hroot & Hrest & ->).
    destruct (Hq 0 ltac:(cbn; lia)) as [Hq0 Hq2].
    rewrite Nat.mul_0_r, Nat.add_0_r in Hq0. cbn [Nat.mul Nat.add] in Hq2.
    rewrite Nat.add_0_r in Hq2.
    cbn [mergeLoop]. unfold bind at 1. unfold fmt.Printf at 1.
    set (tmp := os.temp_name "0g-download-" ".dat" (tmpseq w)).
    rewrite CreateTemp_ok by exact Hq0. cbn [tmpseq put_line]. fold tmp.
    unfold defer. cbn [os.name]. unfold runDownload. wsimpl.
    rewrite (Hroot _ tmp).
    set (got := match faults w !! (clock w + 1) with None => data | Some _ => [] end).
    match goal with |- context [os.ReadFile tmp ?w3] =>
      assert (HR : ∃ e, os.ReadFile tmp w3 = (got, e, ticks 1 w3)) end.
    { subst got. replace (clock w + 1) with (S (clock w)) by lia.
      destruct (faults w !! S (clock w)) as [cause|] eqn:Hf.
      - eexists. apply ReadFile_fault. wsimpl. exact Hf.
      - eexists. apply (ReadFile_ok _ _ data); wsimpl; [exact Hf|].
        apply lookup_insert_eq. }
    destruct HR as [e ->].
    rewrite Write_ok by (wsimpl; rewrite <- Hq2; f_equal; lia).
    unfold os.content. wsimpl. rewrite Hname.
    rewrite !(lookup_insert_ne _ tmp outPath) by apply Hout.
    rewrite Hacc. cbn [default]. unfold id. rewrite Hoff, write_at_end.
    unfold bind at 1. unfold fmt.Printf at 1.
    match goal with |- context [mergeLoop total (S i) rest ?o ?w5] =>
      destruct (IH ds (S i) o w5 (acc ++ got)) as (w' & -> & Hfs & Hfaults & Hflags) end.
    + exact Hrest.
    + exact Hname.
    + wsimpl. apply lookup_insert_eq.
    + cbn [os.offset os.advance]. rewrite Hoff, length_app. reflexivity.
    + intros j Hj. wsimpl. destruct (Hq (S j) ltac:(cbn; lia)) as [Ha Hb].
      split; [rewrite <- Ha | rewrite <- Hb]; f_equal; lia.
    + eexists. split; [reflexivity|]. wsimpl.
      destruct (Remove_frame tmp w') as (Hf1 & Hf2 & _).
      rewrite Remove_other by (apply not_eq_sym, Hout).
      rewrite Hf1, Hf2, Hfs, Hfaults, Hflags. cbn [merged_bytes]. fold got.
      replace (clock w + 3) with (1 + (1 + (1 + clock w))) by lia.
      rewrite <- app_assoc. now repeat split.
Qed.
End merge.

Lemma merged_bytes_quiet plan datas : ∀ c,
  (∀ t, c ≤ t → plan !! t = None) → merged_bytes plan c datas = concat datas.
Proof.
  induction datas as [|d ds IH]; intros c Hq; [reflexivity|].
  cbn [merged_bytes concat]. rewrite Hq by lia. f_equal. apply IH.
  intros t Ht. apply Hq. lia.
Qed.

Lemma merged_bytes_one_fault cause datas : ∀ c k,
  k < length datas →
  merged_bytes {[ c + 3 * k + 1 := cause ]} c datas
  = concat (take k datas) ++ concat (drop (S k) datas).
Proof.
  induction datas as [|d ds IH]; intros c k Hk; [cbn in Hk; lia|].
  cbn [merged_bytes]. destruct k as [|k].
  - rewrite Nat.mul_0_r, Nat.add_0_r, lookup_singleton_eq. cbn [take drop concat app].
    apply merged_bytes_quiet. intros t Ht. apply lookup_singleton_ne. lia.
  - rewrite lookup_singleton_ne by lia. cbn [take drop concat]. rewrite <- app_assoc.
    f_equal. replace (c + 3 * S k + 1) with (c + 3 + 3 * k + 1) by lia.
    apply IH. cbn in Hk. lia.
Qed.

Lemma downloadAndMerge_spec `{TransferClient} roots datas outPath w :
  (∀ n, os.temp_name "0g-download-" ".dat" n ≠ outPath) →
  Forall2 (serves (flags w)) roots datas →
  faults w !! clock w = None →
  (∀ j, j < length roots →
     faults w !! (clock w + 1 + 3 * j) = None
     ∧ faults w !! (clock w + 1 + 3 * j + 2) = None) →
  ∃ w', downloadAndMerge roots outPath w = (Ok tt, w')
        ∧ fs w' !! outPath = Some (merged_bytes (faults w) (clock w + 1) datas)
        ∧ faults w' = faults w ∧ flags w' = flags w.
Proof.
  intros Hout Hserves Hq0 Hq. unfold downloadAndMerge, bind.
  rewrite Create_ok by exact Hq0.
  match goal with |- context [mergeLoop _ 0 roots ?o ?w1] =>
    destruct (mergeLoop_spec outPath (length roots) Hout roots datas 0 o w1 [])
      as (w' & Hrun & Hfs & Hfaults & Hflags) end.
  - exact Hserves.
  - reflexivity.
  - wsimpl. apply lookup_insert_eq.
  - reflexivity.
  - intros j Hj. wsimpl. destruct (Hq j Hj) as [Ha Hb].
    split; [rewrite <- Ha | rewrite <- Hb]; f_equal; lia.
  - exists w'. wsimpl. replace (clock w + 1) with (S (clock w)) by lia. now repeat split.
Qed.

Lemma fileMD5_ok `{Md5} path data w :
  fs w !! path = Some data →
  faults w !! clock w = None → faults w !! S (clock w) = None →
  fileMD5 path w = (Ok (hex.EncodeToString (md5_Sum data)), ticks 2 w).
Proof.
  intros Hp H0 H1. unfold fileMD5, bind. rewrite (Open_ok w path data H0 Hp).
  rewrite Copy_ok by exact H1. unfold os.content. wsimpl. rewrite Hp. reflexivity.
Qed.






(** C10: when every download succeeds and the only failing system call is
    the [os.ReadFile] of iteration [k] (system call [1 + 3 * k + 1] of
    [downloadAndMerge]: [os.Create] comes first, then [os.CreateTemp],
    [os.ReadFile] and [out.Write] for each root), [downloadAndMerge] returns
    nil and the restored file holds every fragment but fragment [k]. *)
Theorem downloadAndMerge_drops_unread_fragment `{TransferClient}
    roots datas (p : string) w k cause :
  Forall2 (serves (flags w)) roots datas →
  k < length roots →
  faults w = {[ clock w + 1 + 3 * k + 1 := cause ]} →
  ∃ w', downloadAndMerge roots (p +:+ ".restored") w = (Ok tt, w')
        ∧ fs w' !! (p +:+ ".restored")
          = Some (concat (take k datas) ++ concat (drop (S k) datas)).
Proof.
  intros Hserves Hk Hfaults.
  destruct (downloadAndMerge_spec roots datas (p +:+ ".restored") w
              (λ n, temp_name_not_restored _ n p) Hserves)
    as (w' & Hrun & Hfs & _).
  - rewrite Hfaults. apply lookup_singleton_ne. lia.
  - intros j _. rewrite Hfaults.
    split; apply lookup_singleton_ne; lia.
  - exists w'. split; [exact Hrun|]. rewrite Hfs, Hfaults.
    replace (clock w + 1 + 3 * k + 1) with ((clock w + 1) + 3 * k + 1) by lia.
    rewrite merged_bytes_one_fault; [reflexivity|].
    apply Forall2_length in Hserves. lia.
Qed.

Lemma downloadAndMerge_drops_unread_fragment_witness :
  ∃ w', @downloadAndMerge (Sample.store Sample.three_fragments) ["r0"; "r1"; "r2"]
          "/data/in.bin.restored"
          (Sample.world (Sample.bytes "abcdefghij") {[ 5 := "input/output error" ]}) = (Ok tt, w')
        ∧ fs w' !! "/data/in.bin.restored" = Some (Sample.bytes "abcdij").
Proof.
  apply (@downloadAndMerge_drops_unread_fragment (Sample.store Sample.three_fragments)
           ["r0"; "r1"; "r2"] [Sample.bytes "abcd"; Sample.bytes "efgh"; Sample.bytes "ij"] "/data/in.bin"
           (Sample.world (Sample.bytes "abcdefghij") {[ 5 := "input/output error" ]})
           1 "input/output error").
  - repeat constructor; intros hist tmpPath; reflexivity.
  - simpl. lia.
  - reflexivity.
Defined.

(* ===================================================================== *)
(** ** The upload loop *)
(* ===================================================================== *)

(** Two strings with different first characters differ. *)
Ltac by_first_char :=
  let E := fresh "E" in
  intros E; apply (f_equal first_char) in E; lazy in E; discriminate E.


Lemma prints_plain_refl w : prints_plain w w.
Proof. exists []. now rewrite app_nil_r. Qed.

Lemma prints_plain_trans w1 w2 w3 :
  prints_plain w1 w2 → prints_plain w2 w3 → prints_plain w1 w3.
Proof.
  intros (l1 & E1 & F1) (l2 & E2 & F2). exists (l1 ++ l2).
  rewrite E2, E1, app_assoc. split; [reflexivity | now apply Forall_app].
Qed.

Lemma prints_plain_line w l : l ≠ verdict_failed → prints_plain w (put_line l w).
Proof. intros Hl. exists [l]. split; [reflexivity | now constructor]. Qed.

Lemma prints_plain_same w w' : stdout w' = stdout w → prints_plain w w'.
Proof. intros E. exists []. now rewrite app_nil_r. Qed.

Lemma uploadSingleFragment_world `{TransferClient} frag w :
  snd (uploadSingleFragment frag w) = log_call (CallUpload (uploadArgs (flags w) frag)) w.
Proof.
  unfold uploadSingleFragment.
  destruct (execUpload _ _ _) as [infos err].
  destruct (omap captureRoot infos) as [|r [|r' rest]]; destruct err; reflexivity.
Qed.

Lemma uploadSingleFragment_never_panics `{TransferClient} frag w msg w' :
  uploadSingleFragment frag w ≠ (Panic msg, w').
Proof.
  unfold uploadSingleFragment.
  destruct (execUpload _ _ _) as [infos err].
  destruct (omap captureRoot infos) as [|r [|r' rest]]; destruct err; discriminate.
Qed.

Lemma substring_length_le n s : String.length (substring 0 n s) ≤ n.
Proof.
  revert s. induction n as [|n IH]; intros [|c s]; simpl; try lia.
  specialize (IH s). lia.
Qed.

(** The comparison [s[:12] == "file uploaded"] sets twelve bytes against
    thirteen: no message passes the test of the [logrus.Infof] replacement. *)
Lemma captureRoot_none s : captureRoot s = None.
Proof.
  unfold captureRoot. destruct (12 <? String.length s); [|reflexivity].
  destruct (String.eqb_spec (substring 0 12 s) "file uploaded") as [E|_];
    [|reflexivity].
  pose proof (substring_length_le 12 s) as Hlen. rewrite E in Hlen.
  simpl in Hlen. lia.
Qed.

(** So nothing is ever sent on [rootChan]: [uploadSingleFragment] returns the
    error of the upload command or, after the time-out, the error that no
    root was captured; it never returns a root. *)
Remark uploadSingleFragment_returns_no_root `{TransferClient} file w :
  ∃ e, uploadSingleFragment file w
       = (Err e, log_call (CallUpload (uploadArgs (flags w) file)) w).
Proof.
  unfold uploadSingleFragment. destruct (execUpload _ _ _) as [infos err].
  assert (Hnone : omap captureRoot infos = []).
  { induction infos as [|s infos IH]; [reflexivity|].
    change (omap captureRoot (s :: infos))
      with (match captureRoot s with
            | Some root => root :: omap captureRoot infos
            | None => omap captureRoot infos
            end).
    rewrite captureRoot_none. exact IH. }
  rewrite Hnone. destruct err as [e|]; eexists; reflexivity.
Qed.

Lemma uploads_app cs cs' : uploads (cs ++ cs') = uploads cs ++ uploads cs'.
Proof. apply omap_app. Qed.

Lemma downloads_app cs cs' : downloads (cs ++ cs') = downloads cs ++ downloads cs'.
Proof. apply omap_app. Qed.

Section uploadLoop.
Context `{TransferClient}.

Lemma uploadLoop_inv frags : ∀ total i roots w r w',
  uploadLoop total i frags roots w = (r, w') →
  ∃ k new,
    length new = k
    ∧ Forall2 uploaded_as (take k frags) new
    ∧ (∀ j root, new !! j = Some root →
         ("分片 " +:+ fmt.d (i + j + 1) +:+ " 上传成功，root = " +:+ root +:+ fmt.nl)
           ∈ stdout w')
    ∧ flags w' = flags w ∧ fs w' = fs w ∧ faults w' = faults w
    ∧ clock w' = clock w ∧ tmpseq w' = tmpseq w
    ∧ prints_plain w w'
    ∧ downloads (calls w') = downloads (calls w)
    ∧ match r with
      | Ok roots' =>
          k = length frags ∧ roots' = roots ++ new
          ∧ uploads (calls w') = uploads (calls w) ++ frags
      | Err e =>
          ∃ frag cause,
            frags !! k = Some frag ∧ upload_failed frag cause
            ∧ e = "上传分片 " +:+ fmt.d (i + k + 1) +:+ " 失败: " +:+ cause
            ∧ uploads (calls w') = uploads (calls w) ++ take (S k) frags
            ∧ ∃ wi, uploadLoop total i frags roots w
                    = uploadLoop total (i + k) (drop k frags) (roots ++ new) wi
      | Panic _ => False
      | Stuck => True
      end.
Proof.
  induction frags as [|frag rest IH]; intros total i roots w r w' Hrun.
  - cbn [uploadLoop] in Hrun. injection Hrun as <- <-. exists 0, [].
    repeat split; try reflexivity; try constructor.
    + intros j root Hj. discriminate.
    + apply prints_plain_refl.
    + now rewrite app_nil_r.
    + now rewrite app_nil_r.
  - cbn [uploadLoop] in Hrun. unfold bind at 1 in Hrun. unfold fmt.Printf at 1 in Hrun.
    unfold bind at 1 in Hrun. unfold map_err in Hrun.
    match type of Hrun with context [uploadSingleFragment frag ?wP] =>
      pose proof (uploadSingleFragment_world frag wP) as Hw;
      pose proof (uploadSingleFragment_never_panics frag wP) as Hnp;
      destruct (uploadSingleFragment frag wP) as [[root|cause|msg|] w1] eqn:HU end;
      cbn [snd] in Hw; subst w1.
    + unfold bind at 1 in Hrun. unfold fmt.Printf at 1 in Hrun.
      match type of Hrun with uploadLoop _ _ _ _ ?wS = _ =>
        assert (Hstep : uploadLoop total i (frag :: rest) roots w
                        = uploadLoop total (S i) rest (roots ++ [root]) wS) end.
      { cbn [uploadLoop]. unfold bind at 1. unfold fmt.Printf at 1.
        unfold bind at 1. unfold map_err. rewrite HU.
        unfold bind at 1. unfold fmt.Printf at 1. reflexivity. }
      apply IH in Hrun as (k & new & Hlen & Hup & Hlines & Hfl & Hfs & Hft & Hck & Htmp
                           & Hplain & Hdl & Hr).
      exists (S k), (root :: new). cbn [flags fs faults clock tmpseq log_call put_line] in *.
      split; [cbn; lia|]. split.
      { cbn [take]. constructor; [eexists _, _; exact HU | exact Hup]. }
      split.
      { intros [|j] root' Hj.
        - injection Hj as <-. destruct Hplain as (lines & -> & _).
          cbn [stdout put_line log_call]. rewrite Nat.add_0_r.
          apply elem_of_app. left. apply elem_of_app. right. now left.
        - replace (i + S j + 1) with (S i + j + 1) by lia. now apply Hlines. }
      repeat (split; [assumption|]). split.
      { eapply prints_plain_trans; [|exact Hplain].
        eexists [_; _]. cbn [stdout put_line log_call]. rewrite <- app_assoc.
        split; [reflexivity|]. repeat constructor; by_first_char. }
      split.
      { rewrite Hdl. cbn [calls log_call put_line]. rewrite downloads_app. cbn.
        now rewrite app_nil_r. }
      destruct r as [roots'|e|msg|]; [| |exact Hr|exact I].
      * destruct Hr as (-> & -> & Hc). cbn [length]. split; [reflexivity|].
        split; [now rewrite <- app_assoc|].
        rewrite Hc. cbn [calls log_call put_line]. rewrite uploads_app.
        now rewrite <- app_assoc.
      * destruct Hr as (frag' & cause & Hk & Hfail & -> & Hc & wi & Hwi).
        exists frag', cause. split; [exact Hk|]. split; [exact Hfail|].
        split; [do 3 f_equal; lia|]. split.
        { rewrite Hc. cbn [calls log_call put_line]. rewrite uploads_app.
          now rewrite <- app_assoc. }
        exists wi. rewrite Hstep, Hwi. cbn [drop]. rewrite <- app_assoc.
        now replace (i + S k) with (S i + k) by lia.
    + injection Hrun as <- <-. exists 0, [].
      cbn [flags fs faults clock tmpseq log_call put_line calls].
      repeat split; try reflexivity; try constructor.
      * intros j root Hj. discriminate.
      * apply (prints_plain_line w). by_first_char.
      * rewrite downloads_app. cbn. now rewrite app_nil_r.
      * exists frag, cause. split; [reflexivity|]. split; [eexists _, _; exact HU|].
        split; [now rewrite Nat.add_0_r|]. split; [now rewrite uploads_app|].
        exists w. now rewrite Nat.add_0_r, app_nil_r.
    + now contradiction (Hnp msg (log_call (CallUpload (uploadArgs (flags w) frag)) (put_line
        (fmt.nl +:+ "[" +:+ fmt.d (i + 1) +:+ "/" +:+ fmt.d total +:+ "] 正在上传分片: "
         +:+ filepath.Base frag +:+ fmt.nl) w))).
    + injection Hrun as <- <-. exists 0, [].
      cbn [flags fs faults clock tmpseq log_call put_line calls].
      repeat split; try reflexivity; try constructor.
      * intros j root Hj. discriminate.
      * apply (prints_plain_line w). by_first_char.
      * rewrite downloads_app. cbn. now rewrite app_nil_r.
Qed.
End uploadLoop.

(* ===================================================================== *)
(** ** What each step of [run] leaves unchanged *)
(* ===================================================================== *)

Lemma same_io_refl w : same_io w w.
Proof. now repeat split. Qed.

Lemma same_io_trans w1 w2 w3 : same_io w1 w2 → same_io w2 w3 → same_io w1 w3.
Proof.
  intros (A1 & A2 & A3 & A4) (B1 & B2 & B3 & B4).
  repeat split; congruence.
Qed.

Lemma same_io_tick w : same_io w (tick w).
Proof. now repeat split. Qed.

Lemma same_io_set_fs m w : same_io w (set_fs m w).
Proof. now repeat split. Qed.

Lemma same_io_prints w w' : same_io w w' → prints_plain w w'.
Proof. intros (_ & E & _). now apply prints_plain_same. Qed.

Lemma Read_same_io f size w c e f1 w1 :
  os.Read f size w = (c, e, f1, w1) → same_io w w1.
Proof.
  unfold os.Read, os.syscall. destruct (size =? 0)%Z.
  - intros [= <- <- <- <-]. apply same_io_refl.
  - destruct (faults w !! clock w); [intros [= <- <- <- <-]; apply same_io_tick|].
    destruct (drop _ _); intros [= <- <- <- <-]; apply same_io_tick.
Qed.

Lemma Create_same_io path w r w1 : os.Create path w = (r, w1) → same_io w w1.
Proof.
  unfold os.Create, os.syscall. destruct (faults w !! clock w); intros [= <- <-];
    now repeat split.
Qed.

Lemma Write_same_io f data w e f1 w1 : os.Write f data w = (e, f1, w1) → same_io w w1.
Proof.
  unfold os.Write, os.syscall. destruct (faults w !! clock w); intros [= <- <- <-];
    [destruct (take _ data)|]; now repeat split.
Qed.

Lemma Open_same_io path w r w1 :
  os.Open path w = (r, w1) → same_io w w1 ∧ fs w1 = fs w.
Proof.
  unfold os.Open, os.syscall. destruct (faults w !! clock w).
  - intros [= <- <-]. now repeat split.
  - cbn [fs tick]. destruct (fs w !! path); intros [= <- <-]; now repeat split.
Qed.

Lemma Copy_same_io f w r w1 : io.Copy f w = (r, w1) → same_io w w1 ∧ fs w1 = fs w.
Proof.
  unfold io.Copy, os.syscall. destruct (faults w !! clock w); intros [= <- <-];
    now repeat split.
Qed.

Lemma MkdirTemp_inv before w r w1 :
  os.MkdirTemp before w = (r, w1) →
  same_io w w1 ∧ fs w1 = fs w
  ∧ ((∃ e, r = Err e) ∨ r = Ok (os.temp_name before "" (tmpseq w))).
Proof.
  unfold os.MkdirTemp, os.syscall. destruct (faults w !! clock w); intros [= <- <-].
  - repeat split. left. now eexists.
  - repeat split. now right.
Qed.

Lemma RemoveAll_same_io dir w : same_io w (os.RemoveAll dir w).
Proof.
  unfold os.RemoveAll, os.syscall. destruct (faults w !! clock w); now repeat split.
Qed.

Lemma RemoveAll_keeps dir w p :
  os.below dir p = false → fs (os.RemoveAll dir w) !! p = fs w !! p.
Proof.
  intros Hp. unfold os.RemoveAll, os.syscall.
  destruct (faults w !! clock w); [reflexivity|]. cbn [fs set_fs tick].
  destruct (fs w !! p) as [data|] eqn:E.
  - apply map_lookup_filter_Some. split; [exact E | exact Hp].
  - apply map_lookup_filter_None. left. exact E.
Qed.

Lemma fileMD5_inv `{Md5} path w r w1 :
  fileMD5 path w = (r, w1) →
  same_io w w1 ∧ fs w1 = fs w ∧ ((∃ d, r = Ok d) ∨ (∃ e, r = Err e)).
Proof.
  unfold fileMD5, bind. destruct (os.Open path w) as [[f|e|msg|] w0] eqn:HO;
    pose proof (Open_same_io _ _ _ _ HO) as [Hio Hfs].
  - destruct (io.Copy f w0) as [[data|e|msg|] w2] eqn:HC;
      pose proof (Copy_same_io _ _ _ _ HC) as [Hio2 Hfs2];
      try (unfold io.Copy, os.syscall in HC; destruct (faults w0 !! clock w0); discriminate).
    + unfold ret. intros [= <- <-]. split; [eapply same_io_trans; eassumption|].
      split; [congruence|]. left. now eexists.
    + intros [= <- <-]. split; [eapply same_io_trans; eassumption|].
      split; [congruence|]. right. now eexists.
  - intros [= <- <-]. repeat split; try apply Hio; try assumption. right. now eexists.
  - unfold os.Open, os.syscall in HO. destruct (faults w !! clock w); [discriminate|].
    cbn [fs tick] in HO. destruct (fs w !! path); discriminate.
  - unfold os.Open, os.syscall in HO. destruct (faults w !! clock w); [discriminate|].
    cbn [fs tick] in HO. destruct (fs w !! path); discriminate.
Qed.

Section splitLoop_total.
Variables (dir : string) (size : Z).

Lemma splitLoop_same_io fuel : ∀ f i files w r w',
  splitLoop fuel f dir size i files w = (r, w') → same_io w w'.
Proof.
  induction fuel as [|fuel IH]; intros f i files w r w' Hrun.
  - injection Hrun as <- <-. apply same_io_refl.
  - cbn [splitLoop] in Hrun.
    destruct (os.Read f size w) as [[[chunk err] f1] w1] eqn:HR.
    apply Read_same_io in HR.
    destruct (length chunk =? 0).
    { destruct err as [e|]; [destruct (negb _)|]; injection Hrun as <- <-; exact HR. }
    destruct (os.Create (fragPath dir i) w1) as [[out|e|msg|] w2] eqn:HC;
      apply Create_same_io in HC;
      try (injection Hrun as <- <-; eapply same_io_trans; eassumption).
    destruct (os.Write out chunk w2) as [[[e|] out'] w3] eqn:HW;
      apply Write_same_io in HW.
    + injection Hrun as <- <-. eauto using same_io_trans.
    + apply IH in Hrun. eauto using same_io_trans.
Qed.

(** The bound [splitLoop] is given is never reached: each iteration that
    goes on has read at least one byte of the source. *)
Lemma splitLoop_not_stuck fuel : ∀ f i files w w',
  length (os.content w (os.name f)) - os.offset f < fuel →
  splitLoop fuel f dir size i files w ≠ (Stuck, w').
Proof.
  induction fuel as [|fuel IH]; intros f i files w w' Hfuel; [lia|].
  cbn [splitLoop]. unfold os.Read, os.syscall.
  destruct (size =? 0)%Z; [discriminate|].
  destruct (faults w !! clock w); [discriminate|].
  change (os.content (tick w) (os.name f)) with (os.content w (os.name f)).
  destruct (drop (os.offset f) (os.content w (os.name f))) as [|b rest] eqn:Hrest;
    [discriminate|].
  set (chunk := take _ (b :: rest)).
  assert (Hmore : os.offset f < length (os.content w (os.name f))).
  { apply (f_equal length) in Hrest. rewrite length_drop in Hrest. simpl in Hrest. lia. }
  destruct (Nat.eqb_spec (length chunk) 0) as [|Hlen]; [discriminate|].
  unfold os.Create, os.syscall. cbn [faults clock tick].
  destruct (faults w !! S (clock w)); [discriminate|].
  unfold os.Write, os.syscall. cbn [faults clock tick set_fs].
  destruct (faults w !! S (S (clock w))); [discriminate|].
  cbn [os.name os.offset]. unfold os.content at 1. cbn [fs set_fs tick].
  rewrite lookup_insert_eq. cbn [default]. unfold id.
  rewrite write_at_fresh, insert_insert_eq.
  apply IH. unfold os.content. cbn [fs set_fs tick os.name os.offset os.advance].
  destruct (decide (fragPath dir i = os.name f)) as [E|E].
  - rewrite E, lookup_insert_eq. cbn [default]. unfold id. lia.
  - rewrite lookup_insert_ne by exact E. fold (os.content w (os.name f)). lia.
Qed.

Lemma splitLoop_never_panics fuel : ∀ f i files w msg w',
  splitLoop fuel f dir size i files w ≠ (Panic msg, w').
Proof.
  induction fuel as [|fuel IH]; intros f i files w msg w'; [discriminate|].
  cbn [splitLoop]. destruct (os.Read f size w) as [[[chunk err] f1] w1].
  destruct (length chunk =? 0); [destruct err as [e|]; [destruct (negb _)|]; discriminate|].
  unfold os.Create, os.syscall. destruct (faults w1 !! clock w1); [discriminate|].
  destruct (os.Write _ chunk _) as [[[e|] out'] w3]; [discriminate|]. apply IH.
Qed.

Lemma splitFile_inv src w r w' :
  splitFile src dir size w = (r, w') →
  same_io w w' ∧ r ≠ Stuck ∧ ((0 ≤ size)%Z → ∀ msg, r ≠ Panic msg).
Proof.
  unfold splitFile, bind. destruct (os.Open src w) as [[f|e|msg|] w0] eqn:HO;
    pose proof (Open_same_io _ _ _ _ HO) as [Hio _];
    try (unfold os.Open, os.syscall in HO; destruct (faults w !! clock w); [discriminate|];
         cbn [fs tick] in HO; destruct (fs w !! src); discriminate).
  - destruct (os.Stat f w0) as [info w1] eqn:HS.
    assert (Hw1 : w1 = ticks 1 w0) by (now rewrite <- (Stat_world w0 f), HS).
    subst w1. destruct (Z.ltb_spec size 0) as [Hneg|Hpos].
    + intros [= <- <-]. split; [eapply same_io_trans; [exact Hio | apply same_io_tick]|].
      split; [discriminate | lia].
    + intros Hrun. split; [|split].
      * apply splitLoop_same_io in Hrun.
        eapply same_io_trans; [exact Hio|]. eapply same_io_trans; [|exact Hrun].
        apply same_io_tick.
      * intros ->. revert Hrun. apply splitLoop_not_stuck. unfold split_bound. lia.
      * intros _ msg ->. revert Hrun. apply splitLoop_never_panics.
  - intros [= <- <-]. split; [exact Hio|]. split; [discriminate|]. intros _ m. discriminate.
Qed.
End splitLoop_total.

Lemma ReadFile_same_io path w data e w1 :
  os.ReadFile path w = (data, e, w1) → same_io w w1 ∧ fs w1 = fs w.
Proof.
  unfold os.ReadFile, os.syscall. destruct (faults w !! clock w).
  - intros [= <- <- <-]. now repeat split.
  - cbn [fs tick]. destruct (fs w !! path); intros [= <- <- <-]; now repeat split.
Qed.

Lemma Write_keeps f data w e f1 w1 p :
  os.Write f data w = (e, f1, w1) →
  is_Some (fs w !! p) → is_Some (fs w1 !! p) ∧ os.name f1 = os.name f.
Proof.
  assert (Hins : ∀ part, is_Some (fs w !! p) →
            is_Some (<[os.name f := part]> (fs w) !! p)).
  { intros part Hp. destruct (decide (os.name f = p)) as [->|Hne].
    - rewrite lookup_insert_eq. now eexists.
    - now rewrite lookup_insert_ne. }
  unfold os.Write, os.syscall. destruct (faults w !! clock w); intros [= <- <- <-];
    intros Hp; (split; [|reflexivity]).
  - destruct (take _ data); [exact Hp|]. cbn [fs set_fs tick]. now apply Hins.
  - cbn [fs set_fs tick]. now apply Hins.
Qed.

Lemma defer_inv {A} cleanup (body : M A) w r w' :
  defer cleanup body w = (r, w') →
  ∃ w0, body w = (r, w0)
        ∧ ((r ≠ Stuck ∧ w' = cleanup w0) ∨ (r = Stuck ∧ w' = w0)).
Proof.
  unfold defer. destruct (body w) as [[a|e|msg|] w0]; intros [= <- <-];
    exists w0; (split; [reflexivity|]); [left | left | left | right];
    (split; [discriminate || reflexivity | reflexivity]).
Qed.

Lemma CreateTemp_inv before after w tf e w1 :
  os.CreateTemp before after w = (tf, e, w1) →
  same_io w w1
  ∧ match tf with
    | None => fs w1 = fs w
    | Some f =>
        f = os.mkFile (os.temp_name before after (tmpseq w)) 0
        ∧ fs w1 = <[os.temp_name before after (tmpseq w) := []]> (fs w)
    end.
Proof.
  unfold os.CreateTemp, os.syscall. destruct (faults w !! clock w);
    intros [= <- <- <-]; now repeat split.
Qed.

Lemma runDownload_inv `{TransferClient} root tmp w e wd :
  runDownload root tmp w = (e, wd) →
  flags wd = flags w ∧ stdout wd = stdout w
  ∧ calls wd = calls w ++ [CallDownload (downloadArgs (flags w) root tmp)]
  ∧ (∀ p, p ≠ tmp → fs wd !! p = fs w !! p).
Proof.
  unfold runDownload. destruct (execDownload _ _) as [[data|] err];
    intros [= <- <-]; cbn [flags stdout calls fs set_fs log_call]; repeat split.
  intros p Hp. now apply lookup_insert_ne.
Qed.

Section mergeLoop_inv.
Context `{TransferClient}.
Variables (outPath : string) (total : nat).
Hypothesis Hout : ∀ n, os.temp_name "0g-download-" ".dat" n ≠ outPath.

Lemma mergeLoop_inv roots : ∀ i out w r w',
  mergeLoop total i roots out w = (r, w') →
  os.name out = outPath →
  is_Some (fs w !! outPath) →
  is_Some (fs w' !! outPath) ∧ flags w' = flags w ∧ prints_plain w w'
  ∧ uploads (calls w') = uploads (calls w) ∧ r ≠ Stuck.
Proof using Hout.
  induction roots as [|root rest IH]; intros i out w r w' Hrun Hname Hfile.
  - injection Hrun as <- <-. repeat split; try assumption; try discriminate.
    apply prints_plain_refl.
  - cbn [mergeLoop] in Hrun. unfold bind at 1 in Hrun. unfold fmt.Printf at 1 in Hrun.
    set (l1 := "[" +:+ _) in Hrun.
    destruct (os.CreateTemp _ _ _) as [[tf e0] w1] eqn:HT.
    apply CreateTemp_inv in HT as [(Hfl1 & Hs1 & _ & Hc1) Htf].
    cbn [flags stdout calls tmpseq fs put_line] in Hfl1, Hs1, Hc1, Htf.
    destruct tf as [tf|].
    2:{ injection Hrun as <- <-. rewrite Htf, Hfl1, Hc1. repeat split; try assumption;
          try discriminate.
        exists [l1]. split; [exact Hs1|]. constructor; [by_first_char|constructor]. }
    destruct Htf as [-> Hfs1]. cbn [os.name] in Hrun.
    set (tmp := os.temp_name "0g-download-" ".dat" (tmpseq w)) in *.
    apply defer_inv in Hrun as (w0 & Hbody & Hw').
    assert (Hw0 : is_Some (fs w0 !! outPath) ∧ flags w0 = flags w
                  ∧ (∃ lines, stdout w0 = stdout w ++ l1 :: lines
                              ∧ Forall (λ l, l ≠ verdict_failed) lines)
                  ∧ uploads (calls w0) = uploads (calls w) ∧ r ≠ Stuck).
    { destruct (runDownload root tmp w1) as [err wd] eqn:HD.
      apply runDownload_inv in HD as (Hfld & Hsd & Hcd & Hfsd).
      assert (Hfd : is_Some (fs wd !! outPath)).
      { rewrite Hfsd by (apply not_eq_sym, Hout).
        rewrite Hfs1, lookup_insert_ne by apply Hout. exact Hfile. }
      assert (Hud : uploads (calls wd) = uploads (calls w)).
      { rewrite Hcd, uploads_app, Hc1. cbn. now rewrite app_nil_r. }
      destruct err as [e|].
      { injection Hbody as <- <-. repeat split; try congruence; try discriminate.
        exists []. split; [congruence | constructor]. }
      destruct (os.ReadFile tmp wd) as [[data e] w4] eqn:HR.
      apply ReadFile_same_io in HR as [(Hfl4 & Hs4 & _ & Hc4) Hfs4].
      destruct (os.Write out data w4) as [[e' out1] w5] eqn:HW.
      pose proof (Write_same_io _ _ _ _ _ _ HW) as (Hfl5 & Hs5 & _ & Hc5).
      apply (Write_keeps _ _ _ _ _ _ outPath) in HW as [Hf5 Hn5]; [|now rewrite Hfs4].
      destruct e' as [e'|].
      { injection Hbody as <- <-. repeat split; try congruence; try discriminate.
        exists []. split; [congruence | constructor]. }
      unfold bind at 1 in Hbody. unfold fmt.Printf at 1 in Hbody.
      set (l2 := "分片 " +:+ _) in Hbody.
      apply IH in Hbody as (Hf6 & Hfl6 & (lines & Hs6 & Hplain) & Hu6 & Hr6);
        [|congruence|exact Hf5].
      cbn [flags stdout calls put_line] in *.
      repeat split; try congruence.
      exists (l2 :: lines). rewrite Hs6, Hs5, Hs4, Hsd, Hs1, <- !app_assoc.
      split; [reflexivity|]. constructor; [by_first_char | exact Hplain]. }
    destruct Hw0 as (Hf0 & Hfl0 & (lines & Hs0 & Hplain) & Hu0 & Hr).
    destruct Hw' as [[_ ->] | [-> _]]; [|now contradiction Hr].
    destruct (Remove_frame tmp w0) as (_ & E1 & E2 & E3).
    rewrite Remove_other by (apply not_eq_sym, Hout). rewrite E1, E3.
    repeat split; try assumption.
    exists (l1 :: lines). rewrite E2, Hs0. split; [reflexivity|].
    constructor; [by_first_char | exact Hplain].
Qed.

Lemma mergeLoop_downloads roots : ∀ i out w r w',
  mergeLoop total i roots out w = (r, w') →
  ∃ k, k ≤ length roots ∧ downloads (calls w') = downloads (calls w) ++ take k roots.
Proof.
  induction roots as [|root rest IH]; intros i out w r w' Hrun.
  - injection Hrun as <- <-. exists 0. split; [lia|]. now rewrite app_nil_r.
  - cbn [mergeLoop] in Hrun. unfold bind at 1 in Hrun. unfold fmt.Printf at 1 in Hrun.
    destruct (os.CreateTemp _ _ _) as [[tf e0] w1] eqn:HT.
    apply CreateTemp_inv in HT as [(_ & _ & _ & Hc1) Htf].
    cbn [calls put_line] in Hc1.
    destruct tf as [tf|].
    2:{ injection Hrun as <- <-. exists 0. split; [lia|]. rewrite Hc1. cbn.
        now rewrite app_nil_r. }
    apply defer_inv in Hrun as (w0 & Hbody & Hw').
    assert (Hw0 : ∃ k, k ≤ length (root :: rest)
                       ∧ downloads (calls w0) = downloads (calls w) ++ take k (root :: rest)).
    { destruct (runDownload root (os.name tf) w1) as [err wd] eqn:HD.
      apply runDownload_inv in HD as (_ & _ & Hcd & _).
      assert (Hwd : downloads (calls wd) = downloads (calls w) ++ [root]).
      { now rewrite Hcd, downloads_app, Hc1. }
      destruct err as [e|].
      { injection Hbody as <- <-. exists 1. split; [cbn; lia | exact Hwd]. }
      destruct (os.ReadFile _ wd) as [[data e] w4] eqn:HR.
      apply ReadFile_same_io in HR as [(_ & _ & _ & Hc4) _].
      destruct (os.Write out data w4) as [[e' out1] w5] eqn:HW.
      apply Write_same_io in HW as (_ & _ & _ & Hc5).
      destruct e' as [e'|].
      { injection Hbody as <- <-. exists 1. split; [cbn; lia|].
        rewrite Hc5, Hc4, Hwd. reflexivity. }
      unfold bind at 1 in Hbody. unfold fmt.Printf at 1 in Hbody.
      apply IH in Hbody as (k & Hk & Hd).
      exists (S k). split; [cbn; lia|]. rewrite Hd. cbn [calls put_line].
      rewrite Hc5, Hc4, Hwd, <- app_assoc. reflexivity. }
    destruct Hw0 as (k & Hk & Hd). exists k. split; [exact Hk|].
    destruct Hw' as [[_ ->] | [_ ->]]; [|exact Hd].
    destruct (Remove_frame (os.name tf) w0) as (_ & _ & _ & E3). now rewrite E3.
Qed.
End mergeLoop_inv.

Lemma downloadAndMerge_inv `{TransferClient} roots outPath w r w' :
  (∀ n, os.temp_name "0g-download-" ".dat" n ≠ outPath) →
  downloadAndMerge roots outPath w = (r, w') →
  flags w' = flags w ∧ prints_plain w w' ∧ uploads (calls w') = uploads (calls w)
  ∧ r ≠ Stuck ∧ (r = Ok tt → is_Some (fs w' !! outPath)).
Proof.
  intros Hout. unfold downloadAndMerge, bind, os.Create, os.syscall.
  destruct (faults w !! clock w).
  { intros [= <- <-]. repeat split; try discriminate. now apply prints_plain_same. }
  intros Hrun. apply (mergeLoop_inv outPath _ Hout) in Hrun
    as (Hf & Hfl & Hp & Hu & Hr); [| reflexivity | cbn [fs set_fs]; rewrite lookup_insert_eq; now eexists].
  split; [exact Hfl|]. split.
  { eapply prints_plain_trans; [|exact Hp]. now apply prints_plain_same. }
  split; [exact Hu|]. split; [exact Hr|]. intros _. exact Hf.
Qed.

Lemma printRoots_inv roots : ∀ i w,
  ∃ w', printRoots i roots w = (Ok tt, w')
        ∧ flags w' = flags w ∧ fs w' = fs w ∧ faults w' = faults w
        ∧ clock w' = clock w ∧ tmpseq w' = tmpseq w ∧ calls w' = calls w
        ∧ prints_plain w w'.
Proof.
  induction roots as [|r rest IH]; intros i w.
  - exists w. repeat split. apply prints_plain_refl.
  - cbn [printRoots]. unfold bind at 1. unfold fmt.Printf at 1.
    match goal with |- context [printRoots (S i) rest ?w1] =>
      destruct (IH (S i) w1) as (w' & -> & A & B & C & D & E & F & G) end.
    exists w'. cbn [flags fs faults clock tmpseq calls put_line] in *.
    repeat split; try assumption.
    eapply prints_plain_trans; [|exact G]. apply prints_plain_line. by_first_char.
Qed.

Lemma verify_inv `{Md5} originMD5 mergedFile w :
  ∃ restoredMD5 w',
    verify originMD5 mergedFile w = (Ok tt, w')
    ∧ fs w' = fs w ∧ flags w' = flags w ∧ calls w' = calls w
    ∧ stdout w' = stdout w
        ++ [fmt.nl +:+ "恢复文件 MD5: " +:+ restoredMD5 +:+ fmt.nl;
            if String.eqb originMD5 restoredMD5 then verdict_ok else verdict_failed]
    ∧ match fileMD5 mergedFile w with
      | (Ok d, _) => restoredMD5 = d
      | _ => restoredMD5 = ""
      end.
Proof.
  unfold verify, bind at 1, or_zero.
  destruct (fileMD5 mergedFile w) as [r w1] eqn:HM.
  destruct (fileMD5_inv _ _ _ _ HM) as ((Hfl & Hs & _ & Hc) & Hfs & [[d ->]|[e ->]]).
  - exists d. unfold bind, fmt.Printf, fmt.Println, fmt.Printf, ret.
    destruct (String.eqb originMD5 d); eexists; (split; [reflexivity|]);
      cbn [fs flags calls stdout put_line]; rewrite <- app_assoc, Hs; now repeat split.
  - exists "". unfold bind, fmt.Printf, fmt.Println, fmt.Printf, ret.
    destruct (String.eqb originMD5 ""); eexists; (split; [reflexivity|]);
      cbn [fs flags calls stdout put_line]; rewrite <- app_assoc, Hs; now repeat split.
Qed.

(* ===================================================================== *)
(** ** [run] and [main] *)
(* ===================================================================== *)

Lemma downloadAndMerge_downloads `{TransferClient} roots outPath w r w' :
  downloadAndMerge roots outPath w = (r, w') →
  ∃ k, k ≤ length roots ∧ downloads (calls w') = downloads (calls w) ++ take k roots.
Proof.
  unfold downloadAndMerge, bind, os.Create, os.syscall.
  destruct (faults w !! clock w).
  - intros [= <- <-]. exists 0. split; [lia|]. cbn. now rewrite app_nil_r.
  - intros Hrun. now apply mergeLoop_downloads in Hrun.
Qed.

Section run.
Context `{TransferClient} `{Md5}.

Lemma reaches_upload_inv w originMD5 tmpDir frags wu :
  reaches_upload w originMD5 tmpDir frags wu →
  flags wu = flags w ∧ faults wu = faults w ∧ calls wu = calls w
  ∧ prints_plain w wu
  ∧ ∃ n, tmpDir = os.temp_name "0g-split-" "" n.
Proof.
  intros (w1 & w2 & w3 & H1 & H2 & H3 & ->).
  apply fileMD5_inv in H1 as ((A1 & A2 & A3 & A4) & _).
  apply MkdirTemp_inv in H2 as ((B1 & B2 & B3 & B4) & _ & Hdir).
  apply splitFile_inv in H3 as ((C1 & C2 & C3 & C4) & _).
  cbn [flags stdout faults calls put_line] in *.
  split; [congruence|]. split; [congruence|]. split; [congruence|]. split.
  - eexists [_; _]. cbn [stdout put_line]. rewrite C2, B2, A2, <- app_assoc.
    split; [reflexivity|]. repeat constructor; by_first_char.
  - destruct Hdir as [[e He]|Hdir]; [discriminate|]. injection Hdir as ->.
    now eexists.
Qed.

Lemma reaches_download_inv w originMD5 tmpDir frags roots wd :
  reaches_download w originMD5 tmpDir frags roots wd →
  length roots = length frags
  ∧ Forall2 uploaded_as frags roots
  ∧ uploads (calls wd) = uploads (calls w) ++ frags
  ∧ downloads (calls wd) = downloads (calls w)
  ∧ flags wd = flags w
  ∧ prints_plain w wd
  ∧ ∃ n, tmpDir = os.temp_name "0g-split-" "" n.
Proof.
  intros (wu & wp & Hup & Hloop & Hprint).
  apply reaches_upload_inv in Hup as (Hfl & Hft & Hc & Hpl & Hdir).
  apply uploadLoop_inv in Hloop
    as (k & new & Hlen & Hnew & _ & Hfl2 & _ & _ & _ & _ & Hpl2 & Hd2 & Hk & Hroots & Hu2).
  cbn [app] in Hroots. subst new. rewrite Hk in Hnew, Hlen. rewrite firstn_all in Hnew.
  destruct (printRoots_inv roots 0
              (put_line (fmt.nl +:+ "=== 所有分片上传完成 ===" +:+ fmt.nl) wp))
    as (wd' & Hprint' & Hfl3 & _ & _ & _ & _ & Hc3 & Hpl3).
  rewrite Hprint in Hprint'. injection Hprint' as <-.
  cbn [flags calls put_line] in *.
  split; [exact Hlen|]. split; [exact Hnew|].
  split; [now rewrite Hc3, Hu2, Hc|]. split; [now rewrite Hc3, Hd2, Hc|].
  split; [congruence|]. split; [|exact Hdir].
  eapply prints_plain_trans; [exact Hpl|]. eapply prints_plain_trans; [exact Hpl2|].
  eapply prints_plain_trans; [|exact Hpl3]. apply prints_plain_line. by_first_char.
Qed.

(** How [run] ends: before [downloadAndMerge], with an error or stuck in an
    upload; or it gets to [downloadAndMerge] and ends as the rest of its body
    does. *)
Lemma run_inv w r w' :
  run w = (r, w') →
  ((∀ u, r ≠ Ok u) ∧ (∀ msg, r ≠ Panic msg)
   ∧ prints_plain w w' ∧ downloads (calls w') = downloads (calls w))
  ∨ ∃ originMD5 tmpDir frags roots wd,
      reaches_download w originMD5 tmpDir frags roots wd
      ∧ (r, w') =
        defer (os.RemoveAll tmpDir)
          (downloadAndMerge roots (filePath (flags w) +:+ ".restored") ;;;
           verify originMD5 (filePath (flags w) +:+ ".restored")) wd.
Proof.
  unfold run. unfold bind at 1. unfold get_flags. unfold bind at 1.
  destruct (fileMD5 (filePath (flags w)) w) as [[originMD5|e|msg|] w1] eqn:H1;
    pose proof (fileMD5_inv _ _ _ _ H1) as ((A1 & A2 & A3 & A4) & _ & HA);
    try (destruct HA as [[? ?]|[? ?]]; discriminate).
  2:{ intros [= <- <-]. left. repeat split; try discriminate; try congruence.
      now apply prints_plain_same. }
  unfold bind at 1. unfold fmt.Printf at 1. unfold bind at 1.
  set (l1 := "原始文件 MD5: " +:+ originMD5 +:+ fmt.nl).
  destruct (os.MkdirTemp "0g-split-" (put_line l1 w1)) as [rd w2] eqn:H2.
  pose proof (MkdirTemp_inv _ _ _ _ H2) as ((B1 & B2 & B3 & B4) & _ & HB).
  cbn [flags stdout faults calls put_line] in B1, B2, B3, B4.
  assert (Hp2 : prints_plain w w2).
  { exists [l1]. rewrite B2, A2. split; [reflexivity|]. repeat constructor. by_first_char. }
  destruct HB as [[e ->]| ->].
  { intros [= <- <-]. left. repeat split; try discriminate; try congruence. }
  set (tmpDir := os.temp_name "0g-split-" "" (tmpseq (put_line l1 w1))) in *.
  intros Hrun. apply defer_inv in Hrun as (w0 & Hbody & Hw').
  assert (Hearly : prints_plain w w0 → downloads (calls w0) = downloads (calls w) →
            prints_plain w w' ∧ downloads (calls w') = downloads (calls w)).
  { intros Hx Hdx. destruct Hw' as [[_ ->] | [_ ->]]; [|now split].
    destruct (RemoveAll_same_io tmpDir w0) as (_ & E2 & _ & E4). split.
    - eapply prints_plain_trans; [exact Hx|]. now apply prints_plain_same.
    - now rewrite E4. }
  unfold bind at 1 in Hbody.
  destruct (splitFile (filePath (flags w)) tmpDir FragmentSize w2) as [rs w3] eqn:H3.
  pose proof (splitFile_inv _ _ _ _ _ _ H3) as ((C1 & C2 & C3 & C4) & Hns & Hnp).
  assert (Hp3 : prints_plain w w3).
  { eapply prints_plain_trans; [exact Hp2|]. now apply prints_plain_same. }
  destruct rs as [frags|e|msg|];
    [| | now contradiction (Hnp ltac:(discriminate) msg) | contradiction ].
  2:{ injection Hbody as <- <-. left.
      destruct (Hearly Hp3 ltac:(congruence)) as [P D].
      repeat split; try discriminate; assumption. }
  unfold bind at 1 in Hbody. unfold fmt.Printf at 1 in Hbody. unfold bind at 1 in Hbody.
  set (l2 := "成功切分成 " +:+ fmt.d (length frags) +:+ " 个分片，每个约 400MB" +:+ fmt.nl)
    in Hbody.
  assert (Hup : reaches_upload w originMD5 tmpDir frags (put_line l2 w3)).
  { exists w1, w2, w3. repeat split; assumption. }
  destruct (uploadLoop (length frags) 0 frags [] (put_line l2 w3)) as [ru wp] eqn:H4.
  pose proof (uploadLoop_inv _ _ _ _ _ _ _ H4)
    as (k & new & _ & _ & _ & _ & _ & _ & _ & _ & Hpl4 & Hd4 & Hr4).
  assert (Hp4 : prints_plain w wp).
  { eapply prints_plain_trans; [exact Hp3|]. eapply prints_plain_trans; [|exact Hpl4].
    apply prints_plain_line. by_first_char. }
  assert (Hd4' : downloads (calls wp) = downloads (calls w)).
  { rewrite Hd4. cbn [calls put_line]. congruence. }
  destruct ru as [roots|e|msg|]; [| | contradiction |].
  2,3: injection Hbody as <- <-; left; destruct (Hearly Hp4 Hd4') as [P D];
       repeat split; try discriminate; assumption.
  unfold bind at 1 in Hbody. unfold fmt.Printf at 1 in Hbody. unfold bind at 1 in Hbody.
  set (l3 := fmt.nl +:+ "=== 所有分片上传完成 ===" +:+ fmt.nl) in Hbody.
  destruct (printRoots_inv roots 0 (put_line l3 wp)) as (wd & Hpr & _).
  rewrite Hpr in Hbody. right.
  exists originMD5, tmpDir, frags, roots, wd. split.
  - exists (put_line l2 w3), wp. repeat split; assumption.
  - unfold defer. rewrite Hbody. destruct Hw' as [[Hr ->] | [-> ->]]; [|reflexivity].
    now destruct r.
Qed.
End run.

Lemma prefix_app_l (a b p : string) :
  String.prefix (a +:+ b) p = true → String.prefix a p = true.
Proof.
  revert p. induction a as [|x a IH]; intros p Hp; [now destruct p|].
  rewrite string_app_cons in Hp. destruct p as [|y p]; [discriminate|].
  simpl in *. destruct (ascii_dec x y); [now apply IH | discriminate].
Qed.

Lemma below_split_dir n (p : string) :
  String.prefix "/tmp/0g-split-" p = false →
  os.below (os.temp_name "0g-split-" "" n) p = false.
Proof.
  intros Hp. unfold os.below.
  change (os.temp_name "0g-split-" "" n) with ("/tmp/0g-split-" +:+ (fmt.d n +:+ "")).
  apply orb_false_intro.
  - apply String.eqb_neq. intros <-. now rewrite prefix_app in Hp.
  - destruct (String.prefix (_ +:+ "/") p) eqn:E; [|reflexivity].
    rewrite string_app_assoc in E. apply prefix_app_l in E. congruence.
Qed.

Lemma prints_plain_last w w' :
  stdout w = [] → prints_plain w w' → last (stdout w') ≠ Some verdict_failed.
Proof.
  intros Hw (lines & -> & Hlines) Hlast. rewrite Hw in Hlast. cbn [app] in Hlast.
  rewrite last_Some in Hlast. destruct Hlast as [pre ->].
  apply Forall_app in Hlines as [_ Hl]. now inversion Hl.
Qed.

Section verdict.
Context `{TransferClient} `{Md5}.

(** A run that prints the verdict of failure last went through all of
    [run]: it returned nil, and the restored file exists. *)
Lemma run_failed_verdict w r w' :
  stdout w = [] →
  run w = (r, w') →
  last (stdout w') = Some verdict_failed →
  r = Ok tt
  ∧ (String.prefix "/tmp/0g-split-" (filePath (flags w) +:+ ".restored") = false →
     is_Some (fs w' !! (filePath (flags w) +:+ ".restored"))).
Proof.
  intros Hw Hrun Hlast.
  apply run_inv in Hrun as [(_ & _ & Hplain & _)|Hlate].
  { now contradiction (prints_plain_last w w' Hw Hplain). }
  destruct Hlate as (originMD5 & tmpDir & frags & roots & wd & Hreach & Hrun).
  apply reaches_download_inv in Hreach as (_ & _ & _ & _ & Hfl & Hpd & n & ->).
  set (merged := filePath (flags w) +:+ ".restored") in *.
  unfold defer, bind in Hrun.
  destruct (downloadAndMerge roots merged wd) as [rd w5] eqn:HD.
  apply downloadAndMerge_inv in HD as (Hfl5 & Hp5 & _ & Hns & Hfile);
    [|intros k; apply temp_name_not_restored].
  assert (Hstop : (r, w') = (rd, os.RemoveAll (os.temp_name "0g-split-" "" n) w5) → False).
  { intros [= -> ->]. apply (prints_plain_last w _ Hw) in Hlast; [exact Hlast|].
    eapply prints_plain_trans; [exact Hpd|]. eapply prints_plain_trans; [exact Hp5|].
    apply same_io_prints, RemoveAll_same_io. }
  destruct rd as [[]|e|msg|];
    [| now contradiction (Hstop Hrun) | now contradiction (Hstop Hrun) | now contradiction Hns].
  destruct (verify_inv originMD5 merged w5) as (restored & w6 & Hv & Hfs6 & _).
  rewrite Hv in Hrun. injection Hrun as -> ->. split; [reflexivity|].
  intros Hpre. rewrite RemoveAll_keeps by (apply below_split_dir, Hpre).
  rewrite Hfs6. now apply Hfile.
Qed.
End verdict.

Section upload_failure.
Context `{TransferClient} `{Md5}.


End upload_failure.



(** C5: [run] either never gets to [downloadAndMerge], and then it makes no
    download and does not return nil; or it calls [downloadAndMerge] on a list
    of roots as long as the list of fragments [splitFile] returned, the root
    at each position being what [uploadSingleFragment] returned for the
    fragment at that position, every fragment having been uploaded, in order;
    the downloads it then makes are of these roots, in order. *)
Theorem download_starts_with_complete_manifest `{TransferClient} `{Md5} w :
  (∃ originMD5 tmpDir frags roots wd,
     reaches_download w originMD5 tmpDir frags roots wd
     ∧ run w = defer (os.RemoveAll tmpDir)
                 (downloadAndMerge roots (filePath (flags w) +:+ ".restored") ;;;
                  verify originMD5 (filePath (flags w) +:+ ".restored")) wd
     ∧ length roots = length frags
     ∧ Forall2 uploaded_as frags roots
     ∧ uploads (calls wd) = uploads (calls w) ++ frags
     ∧ ∃ k, downloads (calls (snd (run w))) = downloads (calls w) ++ take k roots)
  ∨ ((∀ u, fst (run w) ≠ Ok u)
     ∧ downloads (calls (snd (run w))) = downloads (calls w)).
Proof.
  destruct (run w) as [r w'] eqn:Hrun. cbn [fst snd].
  destruct (run_inv w r w' Hrun) as [(Hr & _ & _ & Hd)|Hlate].
  { right. now split. }
  left. destruct Hlate as (originMD5 & tmpDir & frags & roots & wd & Hreach & Hrest).
  exists originMD5, tmpDir, frags, roots, wd.
  destruct (reaches_download_inv _ _ _ _ _ _ Hreach) as (Hlen & Hup & Hu & Hd & _).
  repeat split; try assumption.
  symmetry in Hrest. apply defer_inv in Hrest as (w0 & Hbody & Hw').
  unfold bind in Hbody.
  destruct (downloadAndMerge roots _ wd) as [rd w5] eqn:HD.
  apply downloadAndMerge_downloads in HD as (k & _ & Hk).
  exists k. rewrite <- Hd, <- Hk.
  assert (Hc : calls w' = calls w5); [|now rewrite Hc].
  assert (Hc0 : calls w0 = calls w5).
  { destruct rd as [[]|e|msg|]; try (now injection Hbody as <- <-).
    destruct (verify_inv originMD5 (filePath (flags w) +:+ ".restored") w5)
      as (restored & w6 & Hv & _ & _ & Hc6 & _).
    rewrite Hv in Hbody. now injection Hbody as <- <-. }
  destruct Hw' as [[_ ->] | [_ ->]]; [|exact Hc0].
  destruct (RemoveAll_same_io tmpDir w0) as (_ & _ & _ & E). congruence.
Qed.

(** C8 as stated fails: the digests differ, [run] returns nil, and the
    restored file is on disk. The source is empty, and the [os.Open] of the
    restored file in the second [fileMD5] (system call 7 of the run) fails, so
    that the recomputed digest is the empty string. *)
Lemma restored_file_stays_after_mismatch :
  let w := Sample.world [] {[ 7 := "input/output error" ]} in
  let end_of_run := @run (Sample.store []) Sample.sum8 w in
  fst end_of_run = Ok tt
  ∧ last (stdout (snd end_of_run)) = Some verdict_failed
  ∧ fs (snd end_of_run) !! "/data/in.bin.restored" = Some [].
Proof. vm_compute. repeat split. Qed.

(** C8, as the program has it: a run that ends on the line
    [MD5 校验失败！] has returned nil, and the restored file is still on disk
    (for a restored file outside the directories [run] removes). *)
Theorem mismatch_leaves_restored_file `{TransferClient} `{Md5} w r w' :
  stdout w = [] →
  String.prefix "/tmp/0g-split-" (filePath (flags w) +:+ ".restored") = false →
  run w = (r, w') →
  last (stdout w') = Some verdict_failed →
  r = Ok tt ∧ is_Some (fs w' !! (filePath (flags w) +:+ ".restored")).
Proof.
  intros Hw Hpre Hrun Hlast.
  destruct (run_failed_verdict w r w' Hw Hrun Hlast) as [Hr Hfile].
  split; [exact Hr | exact (Hfile Hpre)].
Qed.

Lemma mismatch_leaves_restored_file_witness :
  let w := Sample.world [] {[ 7 := "input/output error" ]} in
  fst (@run (Sample.store []) Sample.sum8 w) = Ok tt
  ∧ is_Some (fs (snd (@run (Sample.store []) Sample.sum8 w)) !! "/data/in.bin.restored").
Proof.
  intros w.
  destruct (@mismatch_leaves_restored_file (Sample.store []) Sample.sum8 w
              (fst (@run (Sample.store []) Sample.sum8 w))
              (snd (@run (Sample.store []) Sample.sum8 w)))
    as [Hr Hfile]; [reflexivity | reflexivity | now destruct (run w) | vm_compute; reflexivity |].
  split; [exact Hr | exact Hfile].
Defined.

(** C9 as stated fails: on the same run the digests differ and the process
    exits with status 0. *)
Lemma exit_status_zero_after_mismatch :
  let w := Sample.world [] {[ 7 := "input/output error" ]} in
  let end_of_main := @main (Sample.store []) Sample.sum8 w in
  fst end_of_main = Some 0%Z
  ∧ last (stdout (snd end_of_main)) = Some verdict_failed.
Proof. vm_compute. repeat split. Qed.

(** C9, as the program has it: the exit status is 1 when [run] returns an
    error and 2 when it panics; it is 0 only when every step up to and
    including [downloadAndMerge] has succeeded; and a run that ends on the
    line [MD5 校验失败！] has returned nil, so the exit status is 0. *)
Theorem exit_status_of_run `{TransferClient} `{Md5} w r w' :
  stdout w = [] →
  run w = (r, w') →
  fst (main w) = match r with
                 | Ok _ => Some 0%Z
                 | Err _ => Some 1%Z
                 | Panic _ => Some 2%Z
                 | Stuck => None
                 end
  ∧ (last (stdout w') = Some verdict_failed → fst (main w) = Some 0%Z)
  ∧ (fst (main w) = Some 0%Z →
     ∃ originMD5 tmpDir frags roots wd w5,
       reaches_download w originMD5 tmpDir frags roots wd
       ∧ downloadAndMerge roots (filePath (flags w) +:+ ".restored") wd = (Ok tt, w5)).
Proof.
  intros Hw Hrun.
  assert (Hmain : fst (main w) = match r with
                                 | Ok _ => Some 0%Z
                                 | Err _ => Some 1%Z
                                 | Panic _ => Some 2%Z
                                 | Stuck => None
                                 end).
  { unfold main. rewrite Hrun. now destruct r. }
  split; [exact Hmain|]. split.
  { intros Hlast.
    destruct (run_failed_verdict w r w' Hw Hrun Hlast) as [-> _]. exact Hmain. }
  rewrite Hmain. intros Hzero.
  destruct (run_inv w r w' Hrun) as [(Hr & _)|Hlate].
  { destruct r as [u| | |]; [now contradiction (Hr u) | discriminate..]. }
  destruct Hlate as (originMD5 & tmpDir & frags & roots & wd & Hreach & Hrest).
  symmetry in Hrest. apply defer_inv in Hrest as (w0 & Hbody & _).
  unfold bind in Hbody.
  destruct (downloadAndMerge roots _ wd) as [rd w5] eqn:HD.
  destruct rd as [[]|e|msg|]; try (injection Hbody as <- _; discriminate).
  now exists originMD5, tmpDir, frags, roots, wd, w5.
Qed.

Lemma exit_status_of_run_witness :
  fst (@main (Sample.store []) Sample.sum8 (Sample.world (Sample.bytes "abc") ∅))
  = Some 1%Z.
Proof.
  destruct (@exit_status_of_run (Sample.store []) Sample.sum8
              (Sample.world (Sample.bytes "abc") ∅)
              (Err "上传分片 1 失败: 超时未捕获到 root")
              (snd (@run (Sample.store []) Sample.sum8 (Sample.world (Sample.bytes "abc") ∅))))
    as (Hmain & _ & _); [reflexivity | vm_compute; reflexivity | exact Hmain].
Defined.

(* ===================================================================== *)
(** ** Further behaviour of [uploadSingleFragment] *)
(* ===================================================================== *)

(** X1: [uploadSingleFragment] always returns an error and never a root: the
    error of the upload command when it gives one, and otherwise the
    time-out error, since no message passes the test of the first 12 bytes
    against the 13 bytes of "file uploaded". It runs the upload command once
    and changes nothing else. *)
Theorem uploadSingleFragment_error `{TransferClient} file w :
  uploadSingleFragment file w
  = (Err (default "超时未捕获到 root"
            (snd (execUpload (calls w) (uploadArgs (flags w) file) (fs w !! file)))),
     log_call (CallUpload (uploadArgs (flags w) file)) w).
Proof.
  unfold uploadSingleFragment. destruct (execUpload _ _ _) as [infos err].
  assert (Hnone : omap captureRoot infos = []).
  { induction infos as [|s infos IH]; [reflexivity|].
    change (omap captureRoot (s :: infos))
      with (match captureRoot s with
            | Some root => root :: omap captureRoot infos
            | None => omap captureRoot infos
            end).
    rewrite captureRoot_none. exact IH. }
  rewrite Hnone. now destruct err.
Qed.

(* ===================================================================== *)
(** ** Further behaviour of [splitFile] *)
(* ===================================================================== *)









(** X4: [splitFile] always ends, whatever the source, the destination and
    the faults (even when a fragment path is the source itself), and for a
    chunk size that is not above [maxAlloc] it panics only when the chunk
    size is negative. *)
Theorem splitFile_terminates src dir size w :
  fst (splitFile src dir size w) ≠ Stuck
  ∧ ((size ≤ maxAlloc)%Z →
     (∃ msg, fst (splitFile src dir size w) = Panic msg) → (size < 0)%Z).
Proof.
  destruct (splitFile src dir size w) as [r w'] eqn:Hrun. cbn [fst].
  destruct (splitFile_inv _ _ _ _ _ _ Hrun) as (_ & Hns & Hnp).
  split; [exact Hns|]. intros _ [msg ->].
  destruct (Z.ltb_spec size 0) as [Hneg|Hpos]; [exact Hneg|].
  now contradiction (Hnp Hpos msg).
Qed.

Lemma splitFile_terminates_witness :
  fst (splitFile "/data/in.bin" "/tmp/d" (-1) (Sample.world (Sample.bytes "abc") ∅))
  = Panic "makeslice: len out of range"
  ∧ fst (splitFile "/data/in.bin" "/tmp/d" (-1) (Sample.world (Sample.bytes "abc") ∅))
    ≠ Stuck
  ∧ (-1 < 0)%Z.
Proof.
  destruct (splitFile_terminates "/data/in.bin" "/tmp/d" (-1)
              (Sample.world (Sample.bytes "abc") ∅)) as [Hends Hneg].
  split; [reflexivity|]. split; [exact Hends|]. apply Hneg; [unfold maxAlloc; lia|].
  exists "makeslice: len out of range". reflexivity.
Defined.

(** X5: on a source that opens, a chunk size of 0 makes [splitFile] return
    no fragment and a nil error, and a negative chunk size makes it panic in
    [make]; in both cases only [os.Open] and [f.Stat] have run. *)
Theorem splitFile_degenerate_chunk_size src dir size data w :
  fs w !! src = Some data →
  faults w !! clock w = None →
  (size = 0%Z → splitFile src dir size w = (Ok [], ticks 2 w))
  ∧ ((size < 0)%Z →
     splitFile src dir size w = (Panic "makeslice: len out of range", ticks 2 w)).
Proof.
  intros Hsrc Hf. unfold splitFile, bind. rewrite (Open_ok w src data Hf Hsrc).
  destruct (os.Stat _ (ticks 1 w)) as [info w2] eqn:HS.
  pose proof (Stat_world (ticks 1 w) (os.mkFile src 0)) as Hw2.
  rewrite HS in Hw2. cbn [snd] in Hw2. subst w2.
  change (ticks 1 (ticks 1 w)) with (ticks 2 w). split.
  - intros ->. cbn [Z.ltb Z.compare]. unfold split_bound. cbn [splitLoop].
    unfold os.Read. cbn [Z.eqb length Nat.eqb]. reflexivity.
  - intros Hneg. destruct (Z.ltb_spec size 0) as [_|Hpos]; [reflexivity | lia].
Qed.

Lemma splitFile_degenerate_chunk_size_witness :
  splitFile "/data/in.bin" "/tmp/d" 0 (Sample.world (Sample.bytes "abc") ∅)
  = (Ok [], ticks 2 (Sample.world (Sample.bytes "abc") ∅)).
Proof.
  apply (splitFile_degenerate_chunk_size "/data/in.bin" "/tmp/d" 0 (Sample.bytes "abc")
           (Sample.world (Sample.bytes "abc") ∅)); reflexivity.
Defined.



(* ===================================================================== *)
(** ** Further behaviour of [downloadAndMerge] *)
(* ===================================================================== *)

Lemma d_inj i j : fmt.d i = fmt.d j → i = j.
Proof.
  unfold fmt.d. intros E. apply string_of_uint_inj in E.
  apply (f_equal Nat.of_uint) in E. now rewrite !Unsigned.of_to in E.
Qed.

Lemma temp_name_inj before after i j :
  os.temp_name before after i = os.temp_name before after j → i = j.
Proof.
  unfold os.temp_name. intros E. do 3 apply String.app_inj in E.
  apply string_app_inj_r in E. now apply d_inj.
Qed.

Section mergeLoop_prefix.
Context `{TransferClient}.
Variables (outPath : string) (total : nat).
Hypothesis Hout : ∀ n, os.temp_name "0g-download-" ".dat" n ≠ outPath.

(** Running the loop over [good ++ rest], when the downloads of [good]
    succeed and no system call of their iterations fails, comes to running it
    over [rest] from a state where the output holds the fragments of [good];
    the removals deferred meanwhile run once the rest has ended. *)
Lemma mergeLoop_prefix good : ∀ datas rest i out w acc,
  Forall2 (serves (flags w)) good datas →
  os.name out = outPath →
  fs w !! outPath = Some acc →
  os.offset out = length acc →
  (∀ t, clock w ≤ t < clock w + 3 * length good → faults w !! t = None) →
  ∃ wm outm,
    os.name outm = outPath
    ∧ os.offset outm = length (acc ++ concat datas)
    ∧ fs wm !! outPath = Some (acc ++ concat datas)
    ∧ clock wm = clock w + 3 * length good
    ∧ faults wm = faults w ∧ flags wm = flags w
    ∧ downloads (calls wm) = downloads (calls w) ++ good
    ∧ ∀ r w', mergeLoop total (i + length good) rest outm wm = (r, w') →
        r ≠ Stuck →
        ∃ w'', mergeLoop total i (good ++ rest) out w = (r, w'')
               ∧ fs w'' !! outPath = fs w' !! outPath
               ∧ calls w'' = calls w' ∧ flags w'' = flags w'.
Proof using Hout.
  induction good as [|root good IH]; intros datas rest i out w acc Hserves Hname Hacc Hoff Hq.
  - apply Forall2_nil_inv_l in Hserves as ->. exists w, out.
    cbn [concat length app]. rewrite !app_nil_r, !Nat.add_0_r.
    repeat split; try assumption; try lia.
    intros r w' Hrun _. now exists w'.
  - apply Forall2_cons_inv_l in Hserves as (data & ds & Hroot & Hrest & ->).
    assert (Hq0 : faults w !! clock w = None) by (apply Hq; cbn; lia).
    assert (Hq1 : faults w !! S (clock w) = None) by (apply Hq; cbn; lia).
    assert (Hq2 : faults w !! S (S (clock w)) = None) by (apply Hq; cbn; lia).
    set (tmp := os.temp_name "0g-download-" ".dat" (tmpseq w)).
    set (l1 := "[" +:+ fmt.d (i + 1) +:+ "/" +:+ fmt.d total
               +:+ "] 正在下载 root: " +:+ root +:+ fmt.nl).
    set (l2 := "分片 " +:+ fmt.d (i + 1) +:+ " 下载完成，"
               +:+ fmt.d (length data) +:+ " bytes" +:+ fmt.nl).
    set (w5 := put_line l2
                 (set_fs (<[outPath := acc ++ data]> (<[tmp := data]> (fs w)))
                    (log_call (CallDownload (downloadArgs (flags w) root tmp))
                       (next_tmp (ticks 3 (put_line l1 w)))))).
    destruct (IH ds rest (S i) (os.advance (length data) out) w5 (acc ++ data))
      as (wm & outm & Hn & Ho & Hfs & Hck & Hft & Hfl & Hdl & Hcont).
    + exact Hrest.
    + exact Hname.
    + subst w5. cbn [fs put_line set_fs]. apply lookup_insert_eq.
    + cbn [os.offset os.advance]. rewrite Hoff, length_app. reflexivity.
    + intros t Ht. subst w5. cbn [faults clock put_line set_fs log_call next_tmp ticks] in *.
      apply Hq. cbn [length]. lia.
    + exists wm, outm. subst w5.
      cbn [faults clock flags calls put_line set_fs log_call next_tmp ticks] in *.
      cbn [concat length]. rewrite app_assoc.
      split; [exact Hn|]. split; [exact Ho|]. split; [exact Hfs|].
      split; [lia|]. split; [exact Hft|]. split; [exact Hfl|]. split.
      { rewrite Hdl, downloads_app. cbn [app]. now rewrite <- app_assoc. }
      intros r w' Hrun Hr.
      replace (i + S (length good)) with (S i + length good) in Hrun by lia.
      destruct (Hcont r w' Hrun Hr) as (w'' & Hinner & Hfs'' & Hc'' & Hfl'').
      exists (os.Remove tmp w''). split.
      * cbn [app mergeLoop]. unfold bind at 1. unfold fmt.Printf at 1. fold l1.
        rewrite CreateTemp_ok by exact Hq0. cbn [tmpseq put_line]. fold tmp.
        unfold defer. cbn [os.name]. unfold runDownload.
        cbn [flags calls set_fs next_tmp ticks put_line]. rewrite (Hroot _ tmp).
        rewrite (ReadFile_ok _ tmp data)
          by first [exact Hq1 | cbn [fs set_fs log_call]; apply lookup_insert_eq].
        rewrite Write_ok by exact Hq2.
        unfold os.content.
        cbn [fs flags calls set_fs next_tmp ticks put_line log_call].
        rewrite Hname, !(lookup_insert_ne _ tmp outPath) by apply Hout.
        rewrite Hacc. cbn [default]. unfold id. rewrite Hoff, write_at_end.
        unfold bind at 1. unfold fmt.Printf at 1. fold l2.
        rewrite insert_insert_eq.
        match goal with |- context [mergeLoop total (S i) (good ++ rest) ?o ?wx] =>
          change wx with (put_line l2
                 (set_fs (<[outPath := acc ++ data]> (<[tmp := data]> (fs w)))
                    (log_call (CallDownload (downloadArgs (flags w) root tmp))
                       (next_tmp (ticks 3 (put_line l1 w)))))) end.
        rewrite Hinner. now destruct r.
      * destruct (Remove_frame tmp w'') as (_ & E1 & _ & E3).
        rewrite Remove_other by (apply not_eq_sym, Hout). rewrite E1, E3.
        now repeat split.
Qed.
End mergeLoop_prefix.

Lemma CreateTemp_fault before after w cause :
  faults w !! clock w = Some cause →
  os.CreateTemp before after w =
  (None, Some (PathError "open" (os.temp_name before after (tmpseq w)) cause), ticks 1 w).
Proof. intros Hq. unfold os.CreateTemp, os.syscall. now rewrite Hq. Qed.

Section mergeLoop_stops.
Context `{TransferClient}.

(** The iteration of a root whose download fails. *)
Lemma mergeLoop_refused total i bad cause rest out w :
  refuses (flags w) bad cause →
  faults w !! clock w = None →
  ∃ w', mergeLoop total i (bad :: rest) out w
          = (Err ("下载 root " +:+ bad +:+ " 失败: " +:+ cause), w')
        ∧ (∀ p, p ≠ os.temp_name "0g-download-" ".dat" (tmpseq w) →
                fs w' !! p = fs w !! p)
        ∧ downloads (calls w') = downloads (calls w) ++ [bad]
        ∧ flags w' = flags w.
Proof.
  intros Hbad Hq. cbn [mergeLoop]. unfold bind at 1. unfold fmt.Printf at 1.
  rewrite CreateTemp_ok by exact Hq. cbn [tmpseq put_line os.name].
  set (tmp := os.temp_name "0g-download-" ".dat" (tmpseq w)).
  unfold defer, runDownload. cbn [flags calls set_fs next_tmp ticks put_line].
  destruct (Hbad (calls w) tmp) as [written E]. rewrite E.
  eexists. split; [reflexivity|].
  match goal with |- context [os.Remove tmp ?wx] =>
    destruct (Remove_frame tmp wx) as (_ & E1 & _ & E3); set (w3 := wx) in * end.
  split; [|split].
  - intros p Hp. rewrite Remove_other by exact Hp. subst w3.
    destruct written; cbn [fs set_fs log_call next_tmp ticks put_line];
      rewrite ?(lookup_insert_ne _ tmp p) by (apply not_eq_sym, Hp); reflexivity.
  - rewrite E3. subst w3.
    destruct written; cbn [calls set_fs log_call next_tmp ticks put_line];
      now rewrite downloads_app.
  - rewrite E1. subst w3. now destruct written.
Qed.

(** The iteration in which no temporary file can be created. *)
Lemma mergeLoop_no_temp total i root cause rest out w :
  faults w !! clock w = Some cause →
  mergeLoop total i (root :: rest) out w
  = (Panic "invalid memory address or nil pointer dereference",
     ticks 1 (put_line ("[" +:+ fmt.d (i + 1) +:+ "/" +:+ fmt.d total
                        +:+ "] 正在下载 root: " +:+ root +:+ fmt.nl) w)).
Proof.
  intros Hq. cbn [mergeLoop]. unfold bind at 1. unfold fmt.Printf at 1.
  now rewrite (CreateTemp_fault _ _ _ cause) by exact Hq.
Qed.

End mergeLoop_stops.

(** X7: when the download of a root fails, after the roots before it were
    served, [downloadAndMerge] returns the error wrapped with that root; the
    output file holds the fragments merged so far (it was truncated at the
    start), and the roots after the failed one are not downloaded. *)
Theorem downloadAndMerge_stops_at_failed_download `{TransferClient}
    good datas bad cause rest outPath w :
  Forall2 (serves (flags w)) good datas →
  refuses (flags w) bad cause →
  (∀ n, os.temp_name "0g-download-" ".dat" n ≠ outPath) →
  (∀ t, clock w ≤ t ≤ clock w + 1 + 3 * length good → faults w !! t = None) →
  ∃ w', downloadAndMerge (good ++ bad :: rest) outPath w
          = (Err ("下载 root " +:+ bad +:+ " 失败: " +:+ cause), w')
        ∧ fs w' !! outPath = Some (concat datas)
        ∧ downloads (calls w') = downloads (calls w) ++ good ++ [bad].
Proof.
  intros Hgood Hbad Hout Hq. unfold downloadAndMerge, bind.
  rewrite Create_ok by (apply Hq; lia).
  set (w1 := set_fs (<[outPath := []]> (fs w)) (ticks 1 w)).
  destruct (mergeLoop_prefix outPath (length (good ++ bad :: rest)) Hout good datas
              (bad :: rest) 0 (os.mkFile outPath 0) w1 [])
    as (wm & outm & Hn & Ho & Hfs & Hck & Hft & Hfl & Hdl & Hcont).
  - exact Hgood.
  - reflexivity.
  - subst w1. cbn [fs set_fs]. apply lookup_insert_eq.
  - reflexivity.
  - intros t Ht. subst w1. cbn [faults clock set_fs ticks] in *. apply Hq. lia.
  - destruct (mergeLoop_refused (length (good ++ bad :: rest)) (0 + length good)
                bad cause rest outm wm) as (w' & Hrun & Hfs' & Hdl' & Hfl').
    + rewrite Hfl. exact Hbad.
    + rewrite Hft, Hck. subst w1. cbn [faults clock set_fs ticks]. apply Hq. lia.
    + destruct (Hcont _ _ Hrun) as (w'' & Hall & Hfs'' & Hc'' & _); [discriminate|].
      exists w''. split; [exact Hall|]. split.
      * rewrite Hfs'', Hfs' by (apply not_eq_sym, Hout). exact Hfs.
      * rewrite Hc'', Hdl', Hdl. subst w1. cbn [calls set_fs ticks].
        now rewrite <- app_assoc.
Qed.

Lemma downloadAndMerge_stops_at_failed_download_witness :
  ∃ w', @downloadAndMerge (Sample.store [("r0", Sample.bytes "abcd")])
          (["r0"] ++ "gone" :: ["r2"]) "/data/in.bin.restored" (Sample.world [] ∅)
        = (Err ("下载 root " +:+ "gone" +:+ " 失败: " +:+ "file not found"), w')
      ∧ fs w' !! "/data/in.bin.restored" = Some (concat [Sample.bytes "abcd"])
      ∧ downloads (calls w')
        = downloads (calls (Sample.world [] ∅)) ++ ["r0"] ++ ["gone"].
Proof.
  apply (@downloadAndMerge_stops_at_failed_download
           (Sample.store [("r0", Sample.bytes "abcd")])
           ["r0"] [Sample.bytes "abcd"] "gone" "file not found" ["r2"]
           "/data/in.bin.restored" (Sample.world [] ∅)).
  - repeat constructor; intros hist tmpPath; reflexivity.
  - intros hist tmpPath. exists None. reflexivity.
  - intros n. exact (temp_name_not_restored "0g-download-" n "/data/in.bin").
  - intros t _. apply lookup_empty.
Defined.

(** X8: when [os.CreateTemp] fails, its error is dropped and
    [tmpFile.Name()] dereferences a nil file: [downloadAndMerge] panics
    before it downloads that root, leaving the output file with the
    fragments merged so far. *)
Theorem downloadAndMerge_panics_without_temp_file `{TransferClient}
    good datas next rest outPath cause w :
  Forall2 (serves (flags w)) good datas →
  (∀ n, os.temp_name "0g-download-" ".dat" n ≠ outPath) →
  (∀ t, clock w ≤ t < clock w + 1 + 3 * length good → faults w !! t = None) →
  faults w !! (clock w + 1 + 3 * length good) = Some cause →
  ∃ w', downloadAndMerge (good ++ next :: rest) outPath w
          = (Panic "invalid memory address or nil pointer dereference", w')
        ∧ fs w' !! outPath = Some (concat datas)
        ∧ downloads (calls w') = downloads (calls w) ++ good.
Proof.
  intros Hgood Hout Hq Hfault. unfold downloadAndMerge, bind.
  rewrite Create_ok by (apply Hq; lia).
  set (w1 := set_fs (<[outPath := []]> (fs w)) (ticks 1 w)).
  destruct (mergeLoop_prefix outPath (length (good ++ next :: rest)) Hout good datas
              (next :: rest) 0 (os.mkFile outPath 0) w1 [])
    as (wm & outm & Hn & Ho & Hfs & Hck & Hft & Hfl & Hdl & Hcont).
  - exact Hgood.
  - reflexivity.
  - subst w1. cbn [fs set_fs]. apply lookup_insert_eq.
  - reflexivity.
  - intros t Ht. subst w1. cbn [faults clock set_fs ticks] in *. apply Hq. lia.
  - assert (Hqm : faults wm !! clock wm = Some cause).
    { rewrite Hft, Hck. subst w1. cbn [faults clock set_fs ticks].
      rewrite <- Hfault. f_equal. lia. }
    pose proof (mergeLoop_no_temp (length (good ++ next :: rest)) (0 + length good)
                  next cause rest outm wm Hqm) as Hrun.
    destruct (Hcont _ _ Hrun) as (w'' & Hall & Hfs'' & Hc'' & _); [discriminate|].
    exists w''. split; [exact Hall|]. split.
    + rewrite Hfs''. cbn [fs ticks put_line]. exact Hfs.
    + rewrite Hc''. cbn [calls ticks put_line]. rewrite Hdl. subst w1. reflexivity.
Qed.

Lemma downloadAndMerge_panics_without_temp_file_witness :
  ∃ w', @downloadAndMerge (Sample.store [("r0", Sample.bytes "abcd")])
          (["r0"] ++ "r1" :: []) "/data/in.bin.restored"
          (Sample.world [] {[ 4 := "too many open files" ]})
        = (Panic "invalid memory address or nil pointer dereference", w')
      ∧ fs w' !! "/data/in.bin.restored" = Some (concat [Sample.bytes "abcd"])
      ∧ downloads (calls w')
        = downloads (calls (Sample.world [] {[ 4 := "too many open files" ]})) ++ ["r0"].
Proof.
  apply (@downloadAndMerge_panics_without_temp_file
           (Sample.store [("r0", Sample.bytes "abcd")])
           ["r0"] [Sample.bytes "abcd"] "r1" [] "/data/in.bin.restored"
           "too many open files" (Sample.world [] {[ 4 := "too many open files" ]})).
  - repeat constructor; intros hist tmpPath; reflexivity.
  - intros n. exact (temp_name_not_restored "0g-download-" n "/data/in.bin").
  - intros t Ht. apply lookup_singleton_ne. cbn in Ht. lia.
  - reflexivity.
Defined.

Lemma runDownload_frame `{TransferClient} root tmp w e wd :
  runDownload root tmp w = (e, wd) →
  clock wd = clock w ∧ faults wd = faults w ∧ tmpseq wd = tmpseq w.
Proof.
  unfold runDownload. destruct (execDownload _ _) as [[d|] e']; intros [= <- <-]; now cbn.
Qed.

Lemma ReadFile_frame path w data e w1 :
  os.ReadFile path w = (data, e, w1) → clock w1 = S (clock w) ∧ tmpseq w1 = tmpseq w.
Proof.
  unfold os.ReadFile, os.syscall.
  destruct (faults w !! clock w); [|destruct (fs (tick w) !! path)];
    intros [= <- <- <-]; now cbn.
Qed.

Section mergeLoop_cleans.
Context `{TransferClient}.
Variable total : nat.

(** With no failing system call, the loop makes one temporary file for each
    download it runs, and none of them is left when it ends. *)
Lemma mergeLoop_cleans roots : ∀ i out w r w',
  mergeLoop total i roots out w = (r, w') →
  (∀ t, clock w ≤ t → faults w !! t = None) →
  r ≠ Stuck ∧ clock w ≤ clock w' ∧ faults w' = faults w
  ∧ ∃ k, k ≤ length roots ∧ tmpseq w' = tmpseq w + k
       ∧ downloads (calls w') = downloads (calls w) ++ take k roots
       ∧ ∀ n, tmpseq w ≤ n < tmpseq w + k →
              fs w' !! os.temp_name "0g-download-" ".dat" n = None.
Proof.
  induction roots as [|root rest IH]; intros i out w r w' Hrun Hq.
  - injection Hrun as <- <-. split; [discriminate|]. split; [lia|]. split; [reflexivity|].
    exists 0. cbn [take length]. rewrite app_nil_r.
    split; [lia|]. split; [lia|]. split; [reflexivity|]. intros; lia.
  - cbn [mergeLoop] in Hrun. unfold bind at 1 in Hrun. unfold fmt.Printf at 1 in Hrun.
    rewrite CreateTemp_ok in Hrun by (apply Hq; cbn [clock put_line]; lia).
    cbn [tmpseq put_line os.name] in Hrun.
    set (tmp := os.temp_name "0g-download-" ".dat" (tmpseq w)) in *.
    apply defer_inv in Hrun as (w0 & Hbody & Hw').
    match type of Hbody with context [runDownload ?a ?b ?c] =>
      destruct (runDownload a b c) as [[e|] w3] eqn:Hd end.
    + (* the download fails *)
      injection Hbody as <- <-.
      destruct Hw' as [[_ ->]|[Habs _]]; [|discriminate].
      destruct (runDownload_frame _ _ _ _ _ Hd) as (Hc3 & Hf3 & Ht3).
      destruct (runDownload_inv _ _ _ _ _ Hd) as (_ & _ & Hcalls3 & _).
      cbn [clock faults tmpseq calls flags set_fs next_tmp ticks put_line] in Hc3, Hf3, Ht3, Hcalls3.
      rewrite Remove_ok by (rewrite Hf3, Hc3; apply Hq; lia).
      cbn [clock faults tmpseq calls fs set_fs ticks].
      split; [discriminate|]. split; [lia|]. split; [exact Hf3|].
      exists 1. cbn [length take]. split; [lia|]. split; [lia|]. split.
      * rewrite Hcalls3, downloads_app. reflexivity.
      * intros n Hn. replace n with (tmpseq w) by lia. apply lookup_delete_eq.
    + (* it succeeds *)
      destruct (runDownload_frame _ _ _ _ _ Hd) as (Hc3 & Hf3 & Ht3).
      destruct (runDownload_inv _ _ _ _ _ Hd) as (_ & _ & Hcalls3 & _).
      cbn [clock faults tmpseq calls flags set_fs next_tmp ticks put_line] in Hc3, Hf3, Ht3, Hcalls3.
      destruct (os.ReadFile tmp w3) as [[data er] w4] eqn:HR.
      destruct (ReadFile_frame _ _ _ _ _ HR) as (Hc4 & Ht4).
      destruct (ReadFile_same_io _ _ _ _ _ HR) as ((_ & _ & Hf4 & Hcalls4) & _).
      rewrite Write_ok in Hbody by (rewrite Hf4, Hf3, Hc4, Hc3; apply Hq; lia).
      unfold bind at 1 in Hbody. unfold fmt.Printf at 1 in Hbody.
      apply IH in Hbody as (Hr & Hck & Hft & k & Hk & Hts & Hdl & Hfs).
      2:{ intros t Ht. cbn [clock faults put_line set_fs ticks] in *.
          rewrite Hf4, Hf3. apply Hq. lia. }
      cbn [clock faults tmpseq calls put_line set_fs ticks] in Hck, Hft, Hts, Hdl, Hfs.
      destruct Hw' as [[_ ->]|[Habs _]]; [|contradiction].
      rewrite Remove_ok by (rewrite Hft, Hf4, Hf3; apply Hq; lia).
      cbn [clock faults tmpseq calls fs set_fs ticks].
      split; [exact Hr|]. split; [lia|]. split; [now rewrite Hft, Hf4, Hf3|].
      exists (S k). cbn [length take]. split; [lia|]. split; [lia|]. split.
      * rewrite Hdl, Hcalls4, Hcalls3, downloads_app. cbn [app].
        now rewrite <- app_assoc.
      * intros n Hn. destruct (decide (n = tmpseq w)) as [->|Hne].
        -- apply lookup_delete_eq.
        -- rewrite lookup_delete_ne
             by (intros E; apply temp_name_inj in E; congruence).
           apply Hfs. lia.
Qed.
End mergeLoop_cleans.

(** X9: with no failing system call, however the downloads go,
    [downloadAndMerge] makes one temporary file for each download it runs,
    and none of them is left when it returns. *)
Theorem downloadAndMerge_removes_its_temp_files `{TransferClient} roots outPath w r w' :
  (∀ t, clock w ≤ t → faults w !! t = None) →
  downloadAndMerge roots outPath w = (r, w') →
  ∃ k, k ≤ length roots
       ∧ downloads (calls w') = downloads (calls w) ++ take k roots
       ∧ tmpseq w' = tmpseq w + k
       ∧ ∀ n, tmpseq w ≤ n < tmpseq w + k →
              fs w' !! os.temp_name "0g-download-" ".dat" n = None.
Proof.
  intros Hq Hrun. unfold downloadAndMerge, bind in Hrun.
  rewrite Create_ok in Hrun by (apply Hq; lia).
  apply mergeLoop_cleans in Hrun as (_ & _ & _ & k & Hk & Hts & Hdl & Hfs).
  - exists k. cbn [tmpseq calls set_fs ticks] in *. now repeat split.
  - intros t Ht. cbn [clock faults set_fs ticks] in *. apply Hq. lia.
Qed.

Lemma downloadAndMerge_removes_its_temp_files_witness :
  ∃ k, k ≤ 3
       ∧ downloads (calls (snd (@downloadAndMerge (Sample.store Sample.three_fragments)
                                   ["r0"; "r1"; "r2"] "/data/in.bin.restored"
                                   (Sample.world [] ∅))))
         = [] ++ take k ["r0"; "r1"; "r2"]
       ∧ tmpseq (snd (@downloadAndMerge (Sample.store Sample.three_fragments)
                        ["r0"; "r1"; "r2"] "/data/in.bin.restored"
                        (Sample.world [] ∅))) = 0 + k
       ∧ ∀ n, 0 ≤ n < 0 + k →
              fs (snd (@downloadAndMerge (Sample.store Sample.three_fragments)
                         ["r0"; "r1"; "r2"] "/data/in.bin.restored"
                         (Sample.world [] ∅)))
                !! os.temp_name "0g-download-" ".dat" n = None.
Proof.
  apply (@downloadAndMerge_removes_its_temp_files (Sample.store Sample.three_fragments)
           ["r0"; "r1"; "r2"] "/data/in.bin.restored" (Sample.world [] ∅)
           (fst (@downloadAndMerge (Sample.store Sample.three_fragments)
                   ["r0"; "r1"; "r2"] "/data/in.bin.restored" (Sample.world [] ∅)))).
  - intros t _. apply lookup_empty.
  - apply surjective_pairing.
Defined.

(* ===================================================================== *)
(** ** Further behaviour of [run] *)
(* ===================================================================== *)

(** X10: the error of [fileMD5] on the restored file is dropped: when the
    file is missing or cannot be opened, the restored digest is the empty
    string, the digests are reported as different, and the step still ends
    with a nil error. *)
Theorem verify_unreadable_counts_as_mismatch `{Md5} originMD5 mergedFile w :
  fs w !! mergedFile = None ∨ is_Some (faults w !! clock w) →
  originMD5 ≠ "" →
  verify originMD5 mergedFile w
  = (Ok tt, put_line verdict_failed
              (put_line (fmt.nl +:+ "恢复文件 MD5: " +:+ "" +:+ fmt.nl) (ticks 1 w))).
Proof.
  intros Hbad Hne. unfold verify, bind, or_zero, fileMD5, bind, os.Open, os.syscall.
  assert (E : String.eqb originMD5 "" = false) by now apply String.eqb_neq.
  destruct (faults w !! clock w) as [cause|] eqn:Hq.
  - rewrite E. reflexivity.
  - destruct Hbad as [Hnone|[? [=]]]. cbn [fs tick]. rewrite Hnone, E. reflexivity.
Qed.

Lemma verify_unreadable_counts_as_mismatch_witness :
  @verify Sample.sum8 "07" "/data/in.bin.restored" (Sample.world [] ∅)
  = (Ok tt, put_line verdict_failed
              (put_line (fmt.nl +:+ "恢复文件 MD5: " +:+ "" +:+ fmt.nl)
                 (ticks 1 (Sample.world [] ∅)))).
Proof.
  apply (@verify_unreadable_counts_as_mismatch Sample.sum8 "07" "/data/in.bin.restored"
           (Sample.world [] ∅)).
  - left. reflexivity.
  - discriminate.
Defined.

Lemma MkdirTemp_ok before w :
  faults w !! clock w = None →
  os.MkdirTemp before w = (Ok (os.temp_name before "" (tmpseq w)), next_tmp (ticks 1 w)).
Proof. intros Hf. unfold os.MkdirTemp, os.syscall. now rewrite Hf. Qed.

Lemma RemoveAll_ok dir w :
  faults w !! clock w = None →
  os.RemoveAll dir w
  = set_fs (filter (fun kv => os.below dir (fst kv) = false) (fs w)) (ticks 1 w).
Proof. intros Hf. unfold os.RemoveAll, os.syscall. now rewrite Hf. Qed.

Lemma prefix_app_r (a p b : string) :
  String.prefix a p = true → String.prefix a (p +:+ b) = true.
Proof.
  revert p. induction a as [|x a IH]; intros p Hp; [now destruct (p +:+ b)|].
  destruct p as [|y p]; [discriminate|]. rewrite string_app_cons.
  simpl in *. destruct (ascii_dec x y); [now apply IH | discriminate].
Qed.

Lemma FragmentSize_pos : (0 < FragmentSize)%Z.
Proof. reflexivity. Qed.

Section run_no_fault.
Context `{TransferClient} `{Md5}.
Variables (w : World) (data : list byte).
Hypothesis Hq : ∀ t, clock w ≤ t → faults w !! t = None.
Hypothesis Hsrc : fs w !! filePath (flags w) = Some data.
Hypothesis Hpre : String.prefix "/tmp/0g-split-" (filePath (flags w)) = false.
Let tmpDir := os.temp_name "0g-split-" "" (tmpseq w).
Let originMD5 := hex.EncodeToString (md5_Sum data).

(** With a readable source and no failing system call, [run] gets to its
    upload loop with the fragments numbered from 0 in the directory; there
    is none exactly when the source is empty. *)
Lemma run_after_split :
  ∃ n fsu,
    (n = 0 ↔ data = [])
    ∧ (∀ p, os.below tmpDir p = false → fsu !! p = fs w !! p)
    ∧ run w =
      defer (os.RemoveAll tmpDir)
        (roots <- uploadLoop n 0 (map (fragPath tmpDir) (seq 0 n)) [] ;;
         fmt.Printf (fmt.nl +:+ "=== 所有分片上传完成 ===" +:+ fmt.nl) ;;;
         printRoots 0 roots ;;;
         downloadAndMerge roots (filePath (flags w) +:+ ".restored") ;;;
         verify originMD5 (filePath (flags w) +:+ ".restored"))
        (put_line ("成功切分成 " +:+ fmt.d n +:+ " 个分片，每个约 400MB" +:+ fmt.nl)
           (set_fs fsu
              (next_tmp (ticks (3 * n + 6)
                 (put_line ("原始文件 MD5: " +:+ originMD5 +:+ fmt.nl) w))))).
Proof using Hq Hsrc Hpre.
  pose proof FragmentSize_pos as Hsz. unfold run. revert Hsz.
  generalize FragmentSize. intros size Hsz.
  set (sz := Z.to_nat (Z.min size os.maxRW)). set (n := ceil_div (length data) sz).
  assert (Hpos : 0 < sz) by now apply read_size_pos.
  exists n, (write_fragments tmpDir sz data 0 n (fs w)). split; [|split].
  - split.
    + intros Hn. destruct data as [|b ds]; [reflexivity|]. exfalso.
      assert (0 < n); [|lia]. apply ceil_div_lt; [exact Hpos|].
      rewrite Nat.mul_0_l. cbn [length]. lia.
    + intros ->. now apply ceil_div_0.
  - intros p Hp. now apply lookup_write_fragments_outside.
  - unfold bind at 1. unfold get_flags. unfold bind at 1.
    rewrite (fileMD5_ok _ data w Hsrc) by (apply Hq; lia).
    unfold bind at 1. unfold fmt.Printf at 1. unfold bind at 1.
    rewrite MkdirTemp_ok by (apply Hq; cbn [clock put_line ticks]; lia).
    cbn [tmpseq put_line ticks]. fold tmpDir. unfold defer at 1. unfold bind at 1.
    rewrite (splitFile_ok (filePath (flags w)) tmpDir size data _ Hsz).
    + fold sz n. unfold bind at 1. unfold fmt.Printf at 1.
      rewrite length_map, length_seq. unfold defer.
      match goal with |- match ?b ?w1 with _ => _ end = match ?b' ?w2 with _ => _ end =>
        replace w1 with w2; [reflexivity|] end.
      unfold ticks, put_line, set_fs, next_tmp. cbn [flags fs stdout clock faults tmpseq calls].
      f_equal. lia.
    + exact Hsrc.
    + now apply below_split_dir.
    + intros t Ht. apply Hq. cbn [clock next_tmp put_line ticks] in Ht. lia.
Qed.
End run_no_fault.

(** X11: on an empty source, with no failing system call, [run] succeeds
    for every store and digest: no fragment, no upload and no download, an
    empty restored file, the digests agree, and the exit status is 0. *)
Theorem run_empty_source `{TransferClient} `{Md5} w :
  (∀ t, clock w ≤ t → faults w !! t = None) →
  fs w !! filePath (flags w) = Some [] →
  String.prefix "/tmp/0g-split-" (filePath (flags w) +:+ ".restored") = false →
  ∃ w',
    run w = (Ok tt, w')
    ∧ fst (main w) = Some 0%Z
    ∧ calls w' = calls w
    ∧ fs w' !! (filePath (flags w) +:+ ".restored") = Some []
    ∧ stdout w'
      = stdout w
        ++ ["原始文件 MD5: " +:+ hex.EncodeToString (md5_Sum []) +:+ fmt.nl;
            "成功切分成 0 个分片，每个约 400MB" +:+ fmt.nl;
            fmt.nl +:+ "=== 所有分片上传完成 ===" +:+ fmt.nl;
            fmt.nl +:+ "恢复文件 MD5: " +:+ hex.EncodeToString (md5_Sum []) +:+ fmt.nl;
            verdict_ok].
Proof.
  intros Hq Hsrc Hout.
  assert (Hpre : String.prefix "/tmp/0g-split-" (filePath (flags w)) = false).
  { destruct (String.prefix "/tmp/0g-split-" (filePath (flags w))) eqn:E; [|reflexivity].
    apply prefix_app_r with (b := ".restored") in E. congruence. }
  destruct (run_after_split w [] Hq Hsrc Hpre) as (n & fsu & Hn & Hfsu & Hrun).
  assert (n = 0) as -> by now apply Hn. clear Hn.
  set (tmpDir := os.temp_name "0g-split-" "" (tmpseq w)) in *.
  set (merged := filePath (flags w) +:+ ".restored") in *.
  cbn [seq map uploadLoop] in Hrun. unfold defer, bind at 1, ret at 1 in Hrun.
  unfold bind at 1, fmt.Printf at 1 in Hrun. cbn [printRoots] in Hrun.
  unfold bind at 1, ret at 1 in Hrun.
  unfold bind at 1, downloadAndMerge, bind at 1 in Hrun.
  rewrite Create_ok in Hrun by (apply Hq; cbn [clock put_line set_fs next_tmp ticks]; lia).
  cbn [mergeLoop length] in Hrun. unfold ret at 1 in Hrun.
  unfold verify, bind at 1, or_zero in Hrun.
  rewrite (fileMD5_ok merged []) in Hrun.
  2:{ cbn [fs put_line set_fs next_tmp ticks]. apply lookup_insert_eq. }
  2,3: apply Hq; cbn [clock put_line set_fs next_tmp ticks]; lia.
  unfold bind at 1, fmt.Printf at 1, bind at 1 in Hrun.
  rewrite String.eqb_refl in Hrun. unfold fmt.Println, fmt.Printf, ret in Hrun.
  match type of Hrun with _ = (_, os.RemoveAll _ ?wx) => set (wf := wx) in * end.
  exists (os.RemoveAll tmpDir wf).
  split; [exact Hrun|]. split; [unfold main; now rewrite Hrun|].
  destruct (RemoveAll_same_io tmpDir wf) as (_ & Hso & _ & Hcalls). subst wf.
  split; [|split].
  - rewrite Hcalls. reflexivity.
  - rewrite RemoveAll_keeps by now apply below_split_dir.
    cbn [fs put_line set_fs next_tmp ticks]. apply lookup_insert_eq.
  - rewrite Hso. cbn [stdout put_line set_fs next_tmp ticks].
    rewrite <- !app_assoc. reflexivity.
Qed.

Lemma run_empty_source_witness :
  ∃ w',
    @run (Sample.store []) Sample.sum8 (Sample.world [] ∅) = (Ok tt, w')
    ∧ fst (@main (Sample.store []) Sample.sum8 (Sample.world [] ∅)) = Some 0%Z
    ∧ calls w' = calls (Sample.world [] ∅)
    ∧ fs w' !! (filePath (flags (Sample.world [] ∅)) +:+ ".restored") = Some []
    ∧ stdout w'
      = stdout (Sample.world [] ∅)
        ++ ["原始文件 MD5: " +:+ hex.EncodeToString (@md5_Sum Sample.sum8 []) +:+ fmt.nl;
            "成功切分成 0 个分片，每个约 400MB" +:+ fmt.nl;
            fmt.nl +:+ "=== 所有分片上传完成 ===" +:+ fmt.nl;
            fmt.nl +:+ "恢复文件 MD5: " +:+ hex.EncodeToString (@md5_Sum Sample.sum8 [])
              +:+ fmt.nl;
            verdict_ok].
Proof.
  apply (@run_empty_source (Sample.store []) Sample.sum8 (Sample.world [] ∅)).
  - intros t _. apply lookup_empty.
  - reflexivity.
  - reflexivity.
Defined.

Lemma RemoveAll_removes dir w p :
  faults w !! clock w = None → os.below dir p = true →
  fs (os.RemoveAll dir w) !! p = None.
Proof.
  intros Hf Hp. rewrite RemoveAll_ok by exact Hf. cbn [fs set_fs].
  apply map_lookup_filter_None. right. intros x _. cbn [fst]. now rewrite Hp.
Qed.

(** X12: on a source that is not empty, with no failing system call, [run]
    always fails at the upload of the first fragment, for every store: it
    returns the error wrapped with the fragment number 1, the exit status is
    1, one upload and no download were run, and on return the fragment
    directory is gone and every other file is as before (no restored file is
    made). *)
Theorem run_fails_at_first_upload `{TransferClient} `{Md5} w data :
  (∀ t, clock w ≤ t → faults w !! t = None) →
  fs w !! filePath (flags w) = Some data →
  data ≠ [] →
  String.prefix "/tmp/0g-split-" (filePath (flags w)) = false →
  ∃ cause w',
    run w = (Err ("上传分片 1 失败: " +:+ cause), w')
    ∧ fst (main w) = Some 1%Z
    ∧ uploads (calls w')
      = uploads (calls w) ++ [fragPath (os.temp_name "0g-split-" "" (tmpseq w)) 0]
    ∧ downloads (calls w') = downloads (calls w)
    ∧ ∀ p, fs w' !! p
           = if os.below (os.temp_name "0g-split-" "" (tmpseq w)) p then None
             else fs w !! p.
Proof.
  intros Hq Hsrc Hne Hpre.
  destruct (run_after_split w data Hq Hsrc Hpre) as (n & fsu & Hn & Hfsu & Hrun).
  destruct n as [|n']; [now destruct Hne; apply Hn|]. clear Hn.
  set (tmpDir := os.temp_name "0g-split-" "" (tmpseq w)) in *.
  cbn [seq map] in Hrun. unfold defer, bind at 1 in Hrun. cbn [uploadLoop] in Hrun.
  unfold bind at 1, fmt.Printf at 1, bind at 1, map_err in Hrun.
  match type of Hrun with context [uploadSingleFragment ?f ?wx] =>
    destruct (uploadSingleFragment_returns_no_root f wx) as [cause He];
    rewrite He in Hrun; set (w4 := log_call (CallUpload (uploadArgs (flags wx) f)) wx) in * end.
  exists cause, (os.RemoveAll tmpDir w4).
  split; [exact Hrun|]. split; [unfold main; now rewrite Hrun|].
  destruct (RemoveAll_same_io tmpDir w4) as (_ & _ & _ & Hcalls).
  split; [|split].
  - rewrite Hcalls. subst w4. cbn [calls log_call put_line set_fs next_tmp ticks].
    now rewrite uploads_app.
  - rewrite Hcalls. subst w4. cbn [calls log_call put_line set_fs next_tmp ticks].
    rewrite downloads_app. apply app_nil_r.
  - intros p. destruct (os.below tmpDir p) eqn:Hb.
    + apply RemoveAll_removes; [|exact Hb]. subst w4.
      cbn [faults clock log_call put_line set_fs next_tmp ticks]. apply Hq. lia.
    + rewrite RemoveAll_keeps by exact Hb. subst w4.
      cbn [fs log_call put_line set_fs next_tmp ticks]. now apply Hfsu.
Qed.

Lemma run_fails_at_first_upload_witness :
  ∃ cause w',
    @run (Sample.store []) Sample.sum8 (Sample.world (Sample.bytes "abc") ∅)
    = (Err ("上传分片 1 失败: " +:+ cause), w')
    ∧ fst (@main (Sample.store []) Sample.sum8 (Sample.world (Sample.bytes "abc") ∅))
      = Some 1%Z
    ∧ uploads (calls w')
      = uploads (calls (Sample.world (Sample.bytes "abc") ∅))
        ++ [fragPath (os.temp_name "0g-split-" ""
                        (tmpseq (Sample.world (Sample.bytes "abc") ∅))) 0]
    ∧ downloads (calls w') = downloads (calls (Sample.world (Sample.bytes "abc") ∅))
    ∧ ∀ p, fs w' !! p
           = if os.below (os.temp_name "0g-split-" ""
                            (tmpseq (Sample.world (Sample.bytes "abc") ∅))) p
             then None
             else fs (Sample.world (Sample.bytes "abc") ∅) !! p.
Proof.
  apply (@run_fails_at_first_upload (Sample.store []) Sample.sum8
           (Sample.world (Sample.bytes "abc") ∅) (Sample.bytes "abc")).
  - intros t _. apply lookup_empty.
  - reflexivity.
  - discriminate.
  - reflexivity.
Defined.

(** X13: when the source file does not exist, [run] returns the error of
    [os.Open] after that one system call: nothing is printed, created or
    transferred, and the exit status is 1. *)
Theorem run_missing_source `{TransferClient} `{Md5} w :
  fs w !! filePath (flags w) = None →
  run w = (Err (PathError "open" (filePath (flags w))
                  (default "no such file or directory" (faults w !! clock w))),
           ticks 1 w)
  ∧ fst (main w) = Some 1%Z.
Proof.
  intros Hnone.
  assert (E : run w = (Err (PathError "open" (filePath (flags w))
                  (default "no such file or directory" (faults w !! clock w))),
           ticks 1 w)).
  { unfold run, bind at 1, get_flags. unfold bind at 1. unfold fileMD5, bind at 1.
    unfold os.Open, os.syscall. destruct (faults w !! clock w); [reflexivity|].
    cbn [fs tick]. now rewrite Hnone. }
  split; [exact E|]. unfold main. now rewrite E.
Qed.

Lemma run_missing_source_witness :
  @run (Sample.store []) Sample.sum8 (mkWorld Sample.flags0 ∅ [] 0 ∅ ∅ 0 [])
  = (Err (PathError "open" (filePath (flags (mkWorld Sample.flags0 ∅ [] 0 ∅ ∅ 0 [])))
            (default "no such file or directory"
               (faults (mkWorld Sample.flags0 ∅ [] 0 ∅ ∅ 0 [])
                  !! clock (mkWorld Sample.flags0 ∅ [] 0 ∅ ∅ 0 [])))),
     ticks 1 (mkWorld Sample.flags0 ∅ [] 0 ∅ ∅ 0 []))
  ∧ fst (@main (Sample.store []) Sample.sum8 (mkWorld Sample.flags0 ∅ [] 0 ∅ ∅ 0 []))
    = Some 1%Z.
Proof.
  apply (@run_missing_source (Sample.store []) Sample.sum8
           (mkWorld Sample.flags0 ∅ [] 0 ∅ ∅ 0 [])).
  reflexivity.
Defined.

(* ===================================================================== *)
(** ** The scenarios of the specification *)
(* ===================================================================== *)

(** Scenario A: 1,000 bytes in chunks of 400 give fragments of 400, 400 and
    200 bytes, which concatenate to the source. *)
Example scenario_A :
  let w := Sample.world (replicate 1000 "a"%byte) ∅ in
  let (r, w') := splitFile "/data/in.bin" "/tmp/d" 400 w in
  match r with
  | Ok files =>
      map (λ p, length (os.content w' p)) files = [400; 400; 200]
      ∧ concat (map (os.content w') files) = replicate 1000 "a"%byte
  | _ => False
  end.
Proof. vm_compute. split; reflexivity. Qed.

(** Scenario B: 400 bytes in chunks of 400 give one fragment of 400 bytes. *)
Example scenario_B :
  let w := Sample.world (replicate 400 "a"%byte) ∅ in
  let (r, w') := splitFile "/data/in.bin" "/tmp/d" 400 w in
  match r with
  | Ok files => map (λ p, length (os.content w' p)) files = [400]
  | _ => False
  end.
Proof. vm_compute. reflexivity. Qed.

(** Scenario C: on an empty source [run] makes no fragment, no upload and no
    download, writes an empty restored file, and prints that the digests
    match. *)
Example scenario_C :
  let w := Sample.world [] ∅ in
  let (r, w') := @run (Sample.store []) Sample.sum8 w in
  r = Ok tt
  ∧ calls w' = []
  ∧ fs w' !! "/data/in.bin.restored" = Some []
  ∧ last (stdout w') = Some verdict_ok.
Proof. vm_compute. repeat split. Qed.
